(** * YoutubeDownload: the download worker, the format parser, the
    window's worker registry, the download card and the log file handler,
    embedded from [core/downloader.py], [core/parser.py], [core/config.py],
    [core/logger.py], [ui/main_window.py] and [ui/download_card.py].

    Conventions of the embedding.
    - A Python [int] is a [Z]; a Python [float] is idealised as an exact
      rational [Q] (no rounding, no NaN, no infinity).  The divisions by 1024
      and its powers are exact on floats too, and so are the worked examples
      (512000 / 2048000 * 100 is 25.0).
    - A Python [str] is a [string] (a byte sequence; the literals of the
      source are kept, in UTF-8).
    - [None] is [None]; [x or d] is written out with the truthiness of [x].
    - A [dict] built by the code is a record when its keys are fixed and a
      [gmap string _] when keys are added conditionally. *)

From Stdlib Require Import PrimFloat.
From Stdlib Require Import ZArith QArith Qround Qabs String Ascii List Lia Bool.
From Stdlib Require Import DecimalString Lqa.
From stdpp Require Import gmap strings list fin_maps sorting.

Local Open Scope string_scope.
Local Open Scope Z_scope.

(** ** Python's number formatting, as used by the f-strings of the source *)

Module PyFmt.

(** [str(n)] and [f"{n}"] of an int. *)
Definition str_int (n : Z) : string := NilZero.string_of_int (Z.to_int n).

(** [f"{n:02d}"]: decimal, padded with zeros on the left to width 2 (the
    sign, if any, comes first and counts in the width). *)
Definition fmt_02d (n : Z) : string :=
  if n <? 0 then
    (if -10 <? n then "-" ++ str_int (- n) else str_int n)
  else if n <? 10 then "0" ++ str_int n
  else str_int n.

(** Round to the nearest integer, ties to even: what the ['f'] presentation
    type and [round] do with the exact value of their argument. *)
Definition round_half_even (q : Q) : Z :=
  let fl := Qfloor q in
  let r := (q - inject_Z fl)%Q in
  match (r ?= 1 # 2)%Q with
  | Lt => fl
  | Gt => fl + 1
  | Eq => if Z.even fl then fl else fl + 1
  end.

(** The fractional digits of [f"{x:.<p>f}"]: [n mod 10^p] on exactly [p]
    digits. *)
Fixpoint frac_digits (p : nat) (n : Z) : string :=
  match p with
  | O => ""
  | S p' => frac_digits p' (n / 10) ++ str_int (n mod 10)
  end.

(** [f"{x:.<p>f}"] for a finite [x]: sign, integer part, and [p] fractional
    digits after a dot when [p > 0]. *)
Definition fmt_f (p : nat) (x : Q) : string :=
  let n := round_half_even (Qabs x * inject_Z (10 ^ Z.of_nat p)) in
  let body :=
    str_int (n / 10 ^ Z.of_nat p) ++
    match p with
    | O => ""
    | S _ => "." ++ frac_digits p (n mod 10 ^ Z.of_nat p)
    end in
  if Qlt_le_dec x 0 then "-" ++ body else body.

End PyFmt.

(** ** core/converter.py and the parts of [os.path] the worker calls

    The file system and the location of FFmpeg are the worker's environment.
    [get_ffmpeg_path] returns a path or the empty string; the [os.path]
    functions are the library's and are taken as they are. *)

Record OS := {
  get_ffmpeg_path : string;
  path_exists : string -> bool;
  path_join : string -> string -> string;
  path_dirname : string -> string;
  (** [os.path.splitext(p)[0]] *)
  path_splitext0 : string -> string;
}.

(** Truthiness of a [str]. *)
Definition str_truthy (s : string) : bool :=
  match s with EmptyString => false | _ => true end.

(** [check_ffmpeg()]: [bool(get_ffmpeg_path())]. *)
Definition check_ffmpeg (os : OS) : bool := str_truthy (get_ffmpeg_path os).

(** ** The dict of one selectable format

    [parser.get_best_formats] builds these dicts, the window keeps them and
    hands the chosen one to the worker as [format_choice].  The keys are
    fixed, so the dict is a record. *)

Module Choice.
Record t := {
  label : string;
  format_id : string;
  resolution : string;
  height : Z;
  has_audio : bool;
  filesize_mb : option Q;
  type : string;
}.
End Choice.

(** ** core/downloader.py *)

Module Downloader.
Import PyFmt.

(** *** The static formatters *)

Definition _format_bytes (b : Q) : string :=
  if Qlt_le_dec b 1024 then fmt_f 0 b ++ " B"
  else if Qlt_le_dec b (1024 ^ 2) then fmt_f 1 (b / 1024) ++ " KB"
  else if Qlt_le_dec b (1024 ^ 3) then fmt_f 1 (b / (1024 ^ 2)) ++ " MB"
  else fmt_f 2 (b / (1024 ^ 3)) ++ " GB".

Definition _format_speed (s : Q) : string :=
  if Qlt_le_dec s 1024 then fmt_f 0 s ++ " B/s"
  else if Qlt_le_dec s (1024 ^ 2) then fmt_f 1 (s / 1024) ++ " KB/s"
  else fmt_f 1 (s / (1024 ^ 2)) ++ " MB/s".

Definition _format_eta (seconds : Z) : string :=
  if seconds <? 0 then "N/A"
  else
    let h := seconds / 3600 in
    let remainder := seconds mod 3600 in
    let m := remainder / 60 in
    let s := remainder mod 60 in
    if h >? 0 then str_int h ++ ":" ++ fmt_02d m ++ ":" ++ fmt_02d s
    else str_int m ++ ":" ++ fmt_02d s.

(** *** The payload of yt-dlp's progress callback

    [d["status"]] is always there; the other keys may be missing or [None]
    (both are [None] here: [d.get(k)] does not tell them apart, and
    [d.get("downloaded_bytes", 0) or 0] maps both to 0). *)

Record RawEvent := {
  status : string;
  downloaded_bytes : option Q;
  total_bytes : option Q;
  total_bytes_estimate : option Q;
  speed : option Q;
  eta : option Z;
}.

(** Truthiness of an optional number: [None] and zero are falsy. *)
Definition num_truthy (o : option Q) : bool :=
  match o with
  | None => false
  | Some v => negb (Qeq_bool v 0)
  end.

(** [o or d] for an optional number [o]. *)
Definition num_or (o : option Q) (d : Q) : Q :=
  match o with
  | Some v => if num_truthy o then v else d
  | None => d
  end.

(** [a or b], still optional. *)
Definition opt_or (a b : option Q) : option Q :=
  if num_truthy a then a else b.

(** [min(a, b)] of two numbers: the first one unless the second is strictly
    smaller. *)
Definition py_min (a b : Q) : Q := if Qlt_le_dec b a then b else a.

(** The dict passed to [progress.emit]. *)
Record ProgressRecord := {
  percent : Q;
  speed_str : string;
  eta_str : string;
  downloaded_str : string;
  total_str : string;
}.

(** [downloaded] and [total] as [_progress_hook] reads them. *)
Definition hook_downloaded (d : RawEvent) : Q := num_or (downloaded_bytes d) 0.

Definition hook_total (d : RawEvent) : Q :=
  num_or (opt_or (total_bytes d) (total_bytes_estimate d)) 0.

(** The percentage computed by [_progress_hook] for a "downloading" event. *)
Definition hook_percent (d : RawEvent) : Q :=
  let downloaded := hook_downloaded d in
  let total := hook_total d in
  if Qlt_le_dec 0 total then py_min ((downloaded / total) * 100) 100
  else 0.

(** The same expression on binary64 floats, as Python evaluates it, for
    checking the worked examples without the idealisation. *)
Definition percent_binary64 (downloaded total : PrimFloat.float) : PrimFloat.float :=
  if PrimFloat.ltb 0%float total then
    let x := PrimFloat.mul (PrimFloat.div downloaded total) 100%float in
    if PrimFloat.ltb 100%float x then 100%float else x
  else 0%float.

Definition hook_record (d : RawEvent) : ProgressRecord :=
  let downloaded := hook_downloaded d in
  let total := hook_total d in
  let speed := num_or (speed d) 0 in
  {| percent := hook_percent d;
     speed_str := if num_truthy (Some speed) then _format_speed speed else "...";
     eta_str := match eta d with Some e => _format_eta e | None => "..." end;
     downloaded_str := _format_bytes downloaded;
     total_str := if Qlt_le_dec 0 total then _format_bytes total else "?" |}.

(** *** Signals, worker state, and the worker's monad *)

Inductive Event :=
  | Progress (r : ProgressRecord)
  | StatusUpdate (text : string)
  | Finished (filepath : string)
  | Error (message : string).

Record WState := {
  _cancelled : bool;
  emitted : list Event;
}.

Inductive Result (A : Type) :=
  | Ok (a : A)
  | Exc (message : string).
Arguments Ok {A} a.
Arguments Exc {A} message.

Definition M (A : Type) : Type := WState -> Result A * WState.

#[export] Instance M_ret : MRet M := fun A a st => (Ok a, st).
#[export] Instance M_bind : MBind M := fun A B f m st =>
  match m st with
  | (Ok a, st') => f a st'
  | (Exc e, st') => (Exc e, st')
  end.

Definition raise {A} (message : string) : M A := fun st => (Exc message, st).

(** [try: body except Exception as e: handler(str(e))]. *)
Definition try_except {A} (body : M A) (handler : string -> M A) : M A :=
  fun st =>
    match body st with
    | (Ok a, st') => (Ok a, st')
    | (Exc e, st') => handler e st'
    end.

Definition emit (e : Event) : M unit := fun st =>
  (Ok tt, {| _cancelled := _cancelled st; emitted := emitted st ++ [e] |}).

Definition read_cancelled : M bool := fun st => (Ok (_cancelled st), st).

(** [DownloadWorker.cancel]: sets the flag (and logs). *)
Definition cancel : M unit := fun st =>
  (Ok tt, {| _cancelled := true; emitted := emitted st |}).

Definition when (b : bool) (m : M unit) : M unit := if b then m else mret tt.

(** *** The options handed to yt-dlp *)

Inductive OptValue :=
  | VStr (s : string)
  | VBool (b : bool)
  (** [[self._progress_hook]] *)
  | VHooks
  | VPostprocessors (pps : list (gmap string string)).

Definition video_format_str (has_ffmpeg : bool) (height : Z) : string :=
  if has_ffmpeg then
    "bestvideo[height<=" ++ str_int height ++ "][ext=mp4]+bestaudio[ext=m4a]/" ++
    "bestvideo[height<=" ++ str_int height ++ "]+bestaudio/" ++
    "best[height<=" ++ str_int height ++ "]/" ++
    "best"
  else
    "best[height<=" ++ str_int height ++ "][ext=mp4]/" ++
    "best[height<=" ++ str_int height ++ "]/" ++
    "best[ext=mp4]/" ++
    "best".

(** The [ydl_opts] of [_download_video].  [format_choice.get("height", 1080)]
    finds the key: every choice dict has it. *)
Definition video_ydl_opts (os : OS) (output_dir : string) (format_choice : Choice.t)
  : gmap string OptValue :=
  let height := Choice.height format_choice in
  let has_ffmpeg := check_ffmpeg os in
  let format_str := video_format_str has_ffmpeg height in
  let ydl_opts : gmap string OptValue :=
    <["no_warnings" := VBool true]>
    (<["quiet" := VBool true]>
    (<["progress_hooks" := VHooks]>
    (<["outtmpl" := VStr (path_join os output_dir "%(title)s.%(ext)s")]>
    (<["format" := VStr format_str]> ∅)))) in
  let ffmpeg_path := get_ffmpeg_path os in
  let ydl_opts :=
    if str_truthy ffmpeg_path
    then <["ffmpeg_location" := VStr (path_dirname os ffmpeg_path)]> ydl_opts
    else ydl_opts in
  if has_ffmpeg then
    <["postprocessors" :=
        VPostprocessors [ <["preferedformat" := "mp4"]>
                          (<["key" := "FFmpegVideoConvertor"]> ∅) ]]>
    (<["merge_output_format" := VStr "mp4"]> ydl_opts)
  else ydl_opts.

(** The [ydl_opts] of [_download_audio]. *)
Definition audio_ydl_opts (os : OS) (output_dir : string) : gmap string OptValue :=
  let has_ffmpeg := check_ffmpeg os in
  let ydl_opts : gmap string OptValue :=
    <["no_warnings" := VBool true]>
    (<["quiet" := VBool true]>
    (<["progress_hooks" := VHooks]>
    (<["outtmpl" := VStr (path_join os output_dir "%(title)s.%(ext)s")]>
    (<["format" := VStr "bestaudio/best"]> ∅)))) in
  let ffmpeg_path := get_ffmpeg_path os in
  let ydl_opts :=
    if str_truthy ffmpeg_path
    then <["ffmpeg_location" := VStr (path_dirname os ffmpeg_path)]> ydl_opts
    else ydl_opts in
  if has_ffmpeg then
    <["postprocessors" :=
        VPostprocessors [ <["preferredquality" := "192"]>
                          (<["preferredcodec" := "mp3"]>
                          (<["key" := "FFmpegExtractAudio"]> ∅)) ]]> ydl_opts
  else ydl_opts.

(** The request [run] sends to yt-dlp for a choice: [run] takes the audio
    branch when [format_choice["type"] == "audio"] and the video branch
    otherwise. *)
Definition request (os : OS) (output_dir : string) (format_choice : Choice.t)
  : gmap string OptValue :=
  if String.eqb (Choice.type format_choice) "audio"
  then audio_ydl_opts os output_dir
  else video_ydl_opts os output_dir format_choice.

(** A merge step is scheduled when yt-dlp is given [merge_output_format]. *)
Definition merge_required (ydl_opts : gmap string OptValue) : bool :=
  bool_decide (is_Some (ydl_opts !! "merge_output_format")).

(** *** The progress callback *)

Definition _progress_hook (d : RawEvent) : M unit :=
  c ← read_cancelled;
  if (c : bool) then raise "Загрузка отменена"
  else if String.eqb (status d) "downloading" then
    emit (Progress (hook_record d))
  else if String.eqb (status d) "finished" then
    emit (Progress {| percent := 100; speed_str := ""; eta_str := "";
                      downloaded_str := ""; total_str := "" |}) ;;
    emit (StatusUpdate "Обработка...")
  else mret tt.

(** *** What is outside the worker

    During [ydl.extract_info] yt-dlp calls the progress callback any number
    of times and then returns (the file name it predicts) or raises; the
    window's thread may call [cancel()] between any two of these steps, or
    while a callback runs, and once more between the end of the call and the
    worker's last look at the flag.

    A [cancel()] that arrives while a callback runs but before the callback
    has tested the flag is a [CancelRequest] followed by the [Callback].  One
    that arrives after the test is a [CancelDuringCallback]: the callback
    goes on as it would have, since nothing after the test reads the flag,
    and the flag is set by the time it ends. *)

Inductive EngineStep :=
  | Callback (d : RawEvent)
  | CancelRequest
  | CancelDuringCallback (d : RawEvent).

Inductive EngineEnd :=
  | Returns (filename : string)
  | Raises (message : string).

Record EngineRun := {
  steps : list EngineStep;
  ending : EngineEnd;
}.

Record World := {
  os : OS;
  (** yt-dlp, as a function of the url and of [ydl_opts] *)
  engine : string -> gmap string OptValue -> EngineRun;
  late_cancel : bool;
}.

Fixpoint engine_steps (l : list EngineStep) : M unit :=
  match l with
  | [] => mret tt
  | Callback d :: l' => _progress_hook d ;; engine_steps l'
  | CancelRequest :: l' => cancel ;; engine_steps l'
  | CancelDuringCallback d :: l' => _progress_hook d ;; cancel ;; engine_steps l'
  end.

(** [ydl.extract_info(url, download=True)] followed by
    [ydl.prepare_filename(info)]: an exception of the callback leaves through
    the call. *)
Definition extract_info (r : EngineRun) : M string :=
  engine_steps (steps r) ;;
  match ending r with
  | Returns filename => mret filename
  | Raises message => raise message
  end.

(** *** The worker *)

Record Worker := {
  url : string;
  format_choice : Choice.t;
  output_dir : string;
}.

(** The first of [base + ext] that exists, else [filepath]. *)
Fixpoint first_existing (o : OS) (base : string) (exts : list string) (filepath : string)
  : string :=
  match exts with
  | [] => filepath
  | ext :: exts' =>
      if path_exists o (base ++ ext) then base ++ ext
      else first_existing o base exts' filepath
  end.

Definition _download_video (w : World) (self : Worker) : M unit :=
  emit (StatusUpdate "Подготовка загрузки...") ;;
  let ydl_opts := video_ydl_opts (os w) (output_dir self) (format_choice self) in
  emit (StatusUpdate "Скачивание видео...") ;;
  filepath ← extract_info (engine w (url self) ydl_opts) ;
  let filepath :=
    if negb (path_exists (os w) filepath)
    then first_existing (os w) (path_splitext0 (os w) filepath)
           [".mp4"; ".mkv"; ".webm"] filepath
    else filepath in
  when (late_cancel w) cancel ;;
  c ← read_cancelled;
  if negb c then
    emit (StatusUpdate "Готово!") ;;
    emit (Finished filepath)
  else mret tt.

Definition _download_audio (w : World) (self : Worker) : M unit :=
  emit (StatusUpdate "Подготовка загрузки аудио...") ;;
  let has_ffmpeg := check_ffmpeg (os w) in
  let ydl_opts := audio_ydl_opts (os w) (output_dir self) in
  emit (StatusUpdate "Скачивание аудио...") ;;
  filepath ← extract_info (engine w (url self) ydl_opts) ;
  let filepath :=
    if has_ffmpeg && path_exists (os w) (path_splitext0 (os w) filepath ++ ".mp3")
    then path_splitext0 (os w) filepath ++ ".mp3"
    else filepath in
  when (late_cancel w) cancel ;;
  c ← read_cancelled;
  if negb c then
    emit (StatusUpdate "Готово!") ;;
    emit (Finished filepath)
  else mret tt.

Definition run (w : World) (self : Worker) : M unit :=
  try_except
    (if String.eqb (Choice.type (format_choice self)) "audio"
     then _download_audio w self
     else _download_video w self)
    (fun e =>
       when (late_cancel w) cancel ;;
       c ← read_cancelled;
       if negb c then emit (Error e) else mret tt).

(** A fresh worker: [__init__] clears the flag, nothing is emitted yet. *)
Definition init : WState := {| _cancelled := false; emitted := [] |}.

(** The state in which a whole run leaves the worker. *)
Definition final (w : World) (self : Worker) : WState := snd (run w self init).

(** The call of yt-dlp as [run] makes it, after the two status updates. *)
Definition engine_call (w : World) (self : Worker) : Result string * WState :=
  if String.eqb (Choice.type (format_choice self)) "audio" then
    (emit (StatusUpdate "Подготовка загрузки аудио...") ;;
     emit (StatusUpdate "Скачивание аудио...") ;;
     extract_info (engine w (url self) (audio_ydl_opts (os w) (output_dir self)))) init
  else
    (emit (StatusUpdate "Подготовка загрузки...") ;;
     emit (StatusUpdate "Скачивание видео...") ;;
     extract_info (engine w (url self)
       (video_ydl_opts (os w) (output_dir self) (format_choice self)))) init.

Definition is_terminal (e : Event) : bool :=
  match e with
  | Finished _ | Error _ => true
  | Progress _ | StatusUpdate _ => false
  end.

Definition is_error (e : Event) : bool :=
  match e with Error _ => true | _ => false end.

(** How a run ended, read off the worker: the terminal signal it emitted,
    or, when it emitted none, its cancellation flag. *)
Inductive Outcome :=
  | OFinished (filepath : string)
  | OFailed (message : string)
  | OCancelled
  | ONone.

Definition outcome (st : WState) : Outcome :=
  match List.filter is_terminal (emitted st) with
  | Finished p :: _ => OFinished p
  | Error m :: _ => OFailed m
  | _ => if _cancelled st then OCancelled else ONone
  end.

End Downloader.

(** ** core/parser.py *)

Module Parser.
Import PyFmt.

(** [round(x, 1)] of a float, on exact values. *)
Definition round1 (x : Q) : Q :=
  (inject_Z (round_half_even (x * 10)) / 10)%Q.

(** [x or 0] for an optional int. *)
Definition int_or0 (o : option Z) : Z :=
  match o with
  | Some v => v
  | None => 0
  end.

(** [x or 0] for an optional float. *)
Definition float_or0 (o : option Q) : Q :=
  match o with
  | Some v => v
  | None => 0%Q
  end.

Module VideoFormat.

Record t := {
  format_id : string;
  ext : string;
  resolution : string;
  filesize : option Q;
  vcodec : option string;
  acodec : option string;
  fps : option Z;
  tbr : option Q;
  format_note : string;
  height : Z;
  width : Z;
}.

(** The constructor: [self.height = height or 0], [self.width = width or 0]. *)
Definition __init__ (format_id ext resolution : string) (filesize : option Q)
    (vcodec acodec : option string) (fps : option Z) (tbr : option Q)
    (format_note : string) (height width : option Z) : t :=
  {| format_id := format_id; ext := ext; resolution := resolution;
     filesize := filesize; vcodec := vcodec; acodec := acodec;
     fps := fps; tbr := tbr; format_note := format_note;
     height := int_or0 height; width := int_or0 width |}.

(** [self.vcodec != "none" and self.vcodec is not None] *)
Definition has_video (self : t) : bool :=
  match vcodec self with
  | Some c => negb (String.eqb c "none")
  | None => false
  end.

Definition has_audio (self : t) : bool :=
  match acodec self with
  | Some c => negb (String.eqb c "none")
  | None => false
  end.

(** [round(self.filesize / (1024 * 1024), 1)] when [self.filesize] is
    truthy, else [None]. *)
Definition filesize_mb (self : t) : option Q :=
  match filesize self with
  | Some v => if Qeq_bool v 0 then None else Some (round1 (v / (1024 * 1024)))
  | None => None
  end.

End VideoFormat.

Record VideoInfo := {
  url : string;
  title : string;
  duration : Z;
  channel : string;
  thumbnail : string;
  video_id : string;
  formats : list VideoFormat.t;
}.

(** *** [get_best_formats] *)

(** The dict appended for a video format [f]. *)
Definition video_choice (f : VideoFormat.t) : Choice.t :=
  let h := VideoFormat.height f in
  {| Choice.label := str_int h ++ "p • MP4";
     Choice.format_id := VideoFormat.format_id f;
     Choice.resolution := str_int h ++ "p";
     Choice.height := h;
     Choice.has_audio := VideoFormat.has_audio f;
     Choice.filesize_mb := VideoFormat.filesize_mb f;
     Choice.type := "video" |}.

(** One turn of the loop over [video_info.formats]: the state is
    [(seen_heights, result)]. *)
Definition video_step (st : gset Z * list Choice.t) (f : VideoFormat.t)
  : gset Z * list Choice.t :=
  let '(seen_heights, result) := st in
  if negb (VideoFormat.has_video f) then st
  else if VideoFormat.height f <? 240 then st
  else
    let h := VideoFormat.height f in
    if bool_decide (h ∈ seen_heights) then st
    else ({[ h ]} ∪ seen_heights, (result ++ [video_choice f])%list).

(** [max(l, key=key)]: the first element whose key no later one exceeds
    strictly; [None] stands for the [ValueError] on an empty list. *)
Fixpoint max_from {A} (key : A -> Q) (best : A) (l : list A) : A :=
  match l with
  | [] => best
  | x :: l' => max_from key (if Qlt_le_dec (key best) (key x) then x else best) l'
  end.

Definition py_max {A} (key : A -> Q) (l : list A) : option A :=
  match l with
  | [] => None
  | x :: l' => Some (max_from key x l')
  end.

Definition is_audio_only (f : VideoFormat.t) : bool :=
  negb (VideoFormat.has_video f) && VideoFormat.has_audio f.

Definition audio_choice (best_audio : VideoFormat.t) : Choice.t :=
  {| Choice.label := "MP3 • Audio Only";
     Choice.format_id := VideoFormat.format_id best_audio;
     Choice.resolution := "audio";
     Choice.height := 0;
     Choice.has_audio := true;
     Choice.filesize_mb := VideoFormat.filesize_mb best_audio;
     Choice.type := "audio" |}.

Definition get_best_formats (video_info : VideoInfo) : list Choice.t :=
  let '(_, result) := fold_left video_step (formats video_info) (∅, []) in
  let audio_formats := List.filter is_audio_only (formats video_info) in
  match py_max (fun x => float_or0 (VideoFormat.tbr x)) audio_formats with
  | Some best_audio => (result ++ [audio_choice best_audio])%list
  | None => result
  end.

(** *** [parse_video], from the dict yt-dlp returns

    A key of the raw dicts is [None] here when it is missing; [vcodec] and
    [acodec] are also [None] when they are present with the value [None]
    (the code reads them with [or "none"]). *)

Record RawFormat := {
  raw_format_id : option string;
  raw_ext : option string;
  raw_resolution : option string;
  raw_filesize : option Q;
  raw_filesize_approx : option Q;
  raw_vcodec : option string;
  raw_acodec : option string;
  raw_fps : option Z;
  raw_tbr : option Q;
  raw_format_note : option string;
  raw_height : option Z;
  raw_width : option Z;
}.

Record RawInfo := {
  raw_formats : list RawFormat;
  raw_title : option string;
  raw_duration : option Z;
  raw_channel : option string;
  raw_uploader : option string;
  raw_thumbnail : option string;
  raw_id : option string;
}.

(** [d.get(k, default)] for a string key. *)
Definition get_str (o : option string) (default : string) : string :=
  match o with
  | Some s => s
  | None => default
  end.

(** [d.get(k, "none") or "none"] *)
Definition codec_or_none (o : option string) : string :=
  match o with
  | Some s => if str_truthy s then s else "none"
  | None => "none"
  end.

(** [a or b] for optional numbers. *)
Definition float_or (a b : option Q) : option Q :=
  match a with
  | Some v => if Qeq_bool v 0 then b else a
  | None => b
  end.

(** [str.lower] on the ASCII letters (other bytes are kept). *)
Definition lower_ascii (c : ascii) : ascii :=
  let n := nat_of_ascii c in
  if ((65 <=? n) && (n <=? 90))%nat then ascii_of_nat (n + 32) else c.

Fixpoint lower (s : string) : string :=
  match s with
  | EmptyString => EmptyString
  | String c s' => String (lower_ascii c) (lower s')
  end.

(** [needle in hay] *)
Fixpoint contains (needle hay : string) : bool :=
  String.prefix needle hay ||
  match hay with
  | EmptyString => false
  | String _ hay' => contains needle hay'
  end.

(** The loop over [raw_formats]: storyboards and mhtml are skipped. *)
Definition keep_raw (f : RawFormat) : bool :=
  negb (contains "storyboard" (lower (get_str (raw_format_note f) ""))) &&
  negb (String.eqb (get_str (raw_ext f) "") "mhtml").

Definition format_of_raw (f : RawFormat) : VideoFormat.t :=
  VideoFormat.__init__
    (get_str (raw_format_id f) "")
    (get_str (raw_ext f) "")
    (get_str (raw_resolution f) "")
    (float_or (raw_filesize f) (raw_filesize_approx f))
    (Some (codec_or_none (raw_vcodec f)))
    (Some (codec_or_none (raw_acodec f)))
    (raw_fps f)
    (raw_tbr f)
    (get_str (raw_format_note f) "")
    (raw_height f)
    (raw_width f).

(** [list.sort(key=key)] is stable and ascending in the key; a stable sort
    has one possible result, computed here by insertion from the right. *)
Fixpoint insert_by {A} (key : A -> Z) (x : A) (l : list A) : list A :=
  match l with
  | [] => [x]
  | y :: l' => if key y <? key x then y :: insert_by key x l' else x :: y :: l'
  end.

Definition sort_by {A} (key : A -> Z) (l : list A) : list A :=
  fold_right (insert_by key) [] l.

(** [formats.sort(key=lambda x: -(x.height or 0))]; the height is an int
    already, so [x.height or 0] is [x.height]. *)
Definition sort_key (x : VideoFormat.t) : Z := - (VideoFormat.height x).

Definition parse_formats (raw : list RawFormat) : list VideoFormat.t :=
  sort_by sort_key (List.map format_of_raw (List.filter keep_raw raw)).

(** [parse_video] once yt-dlp has answered; [url] is the normalised url. *)
Definition parse_video (url : string) (info : RawInfo) : VideoInfo :=
  {| url := url;
     title := get_str (raw_title info) "Unknown";
     duration := int_or0 (raw_duration info);
     channel :=
       (let c := get_str (raw_channel info) "" in
        if str_truthy c then c else get_str (raw_uploader info) "Unknown");
     thumbnail := get_str (raw_thumbnail info) "";
     video_id := get_str (raw_id info) "";
     formats := parse_formats (raw_formats info) |}.

(** The options offered for a video: [get_best_formats(parse_video(url))]. *)
Definition resolve (url : string) (info : RawInfo) : list Choice.t :=
  get_best_formats (parse_video url info).

Definition is_video (c : Choice.t) : bool := String.eqb (Choice.type c) "video".
Definition is_audio (c : Choice.t) : bool := String.eqb (Choice.type c) "audio".

(** [VideoInfo.duration_str] *)
Definition duration_str (self : VideoInfo) : string :=
  let h := duration self / 3600 in
  let remainder := duration self mod 3600 in
  let m := remainder / 60 in
  let s := remainder mod 60 in
  if h >? 0 then str_int h ++ ":" ++ fmt_02d m ++ ":" ++ fmt_02d s
  else str_int m ++ ":" ++ fmt_02d s.

(** *** [normalize_url]

    [str.strip()] removes the characters for which [str.isspace()] holds
    from both ends.  A [str] is here the UTF-8 encoding of its characters, so
    a whitespace character is one of these byte sequences: 09 to 0D, 1C to
    1F and 20; C2 85 and C2 A0; E1 9A 80; E2 80 80 to E2 80 8A, E2 80 A8,
    E2 80 A9, E2 80 AF, E2 81 9F; E3 80 80. *)

Definition ws1 (c1 : ascii) : bool :=
  let n := nat_of_ascii c1 in
  ((9 <=? n) && (n <=? 13) || (28 <=? n) && (n <=? 32))%nat.

Definition ws2 (c1 c2 : ascii) : bool :=
  let n1 := nat_of_ascii c1 in
  let n2 := nat_of_ascii c2 in
  ((n1 =? 194) && ((n2 =? 133) || (n2 =? 160)))%nat.

Definition ws3 (c1 c2 c3 : ascii) : bool :=
  let n1 := nat_of_ascii c1 in
  let n2 := nat_of_ascii c2 in
  let n3 := nat_of_ascii c3 in
  ((n1 =? 225) && (n2 =? 154) && (n3 =? 128) ||
   (n1 =? 226) && (n2 =? 128) &&
     ((128 <=? n3) && (n3 <=? 138) || (n3 =? 168) || (n3 =? 169) || (n3 =? 175)) ||
   (n1 =? 226) && (n2 =? 129) && (n3 =? 159) ||
   (n1 =? 227) && (n2 =? 128) && (n3 =? 128))%nat.

(** The rest of [s] after one whitespace character, if [s] starts with one. *)
Definition ws_head (s : string) : option string :=
  match s with
  | String c1 r1 =>
      if ws1 c1 then Some r1
      else match r1 with
           | String c2 r2 =>
               if ws2 c1 c2 then Some r2
               else match r2 with
                    | String c3 r3 => if ws3 c1 c2 c3 then Some r3 else None
                    | EmptyString => None
                    end
           | EmptyString => None
           end
  | EmptyString => None
  end.

(** [s.lstrip()] *)
Fixpoint lstrip (s : string) : string :=
  match s with
  | String c1 r1 =>
      if ws1 c1 then lstrip r1
      else match r1 with
           | String c2 r2 =>
               if ws2 c1 c2 then lstrip r2
               else match r2 with
                    | String c3 r3 => if ws3 c1 c2 c3 then lstrip r3 else s
                    | EmptyString => s
                    end
           | EmptyString => s
           end
  | EmptyString => s
  end.

(** [s] consists of whitespace characters only. *)
Fixpoint blank (s : string) : bool :=
  match s with
  | String c1 r1 =>
      if ws1 c1 then blank r1
      else match r1 with
           | String c2 r2 =>
               if ws2 c1 c2 then blank r2
               else match r2 with
                    | String c3 r3 => ws3 c1 c2 c3 && blank r3
                    | EmptyString => false
                    end
           | EmptyString => false
           end
  | EmptyString => true
  end.

(** [s.rstrip()]: [s] up to its longest suffix of whitespace characters. *)
Fixpoint rstrip (s : string) : string :=
  match s with
  | String c s' => if blank s then EmptyString else String c (rstrip s')
  | EmptyString => EmptyString
  end.

(** [s.strip()] *)
Definition strip (s : string) : string := rstrip (lstrip s).

Definition normalize_url (url : string) : string :=
  let url := strip url in
  if negb (String.prefix "http" url) then "https://" ++ url else url.

End Parser.

(** ** core/config.py and the worker list of ui/main_window.py *)

Module Config.
Definition DEFAULT_MAX_CONCURRENT : Z := 3.
End Config.

Module MainWindow.

(** The window keeps [settings] (where [max_concurrent] lives, between 1 and 5
    in the settings dialog) and [active_workers], a list of worker objects;
    a worker object is identified by a number here. *)
Record t := {
  max_concurrent : Z;
  active_workers : list nat;
}.

Definition init (max_concurrent : Z) : t :=
  {| max_concurrent := max_concurrent; active_workers := [] |}.

(** [_start_download]: the worker is appended and started at once. *)
Definition _start_download (self : t) (worker : nat) : t :=
  {| max_concurrent := max_concurrent self;
     active_workers := active_workers self ++ [worker] |}.

(** [list.remove(x)]: drops the first occurrence. *)
Fixpoint list_remove (x : nat) (l : list nat) : list nat :=
  match l with
  | [] => []
  | y :: l' => if Nat.eqb x y then l' else y :: list_remove x l'
  end.

(** [_on_worker_finished] *)
Definition _on_worker_finished (self : t) (worker : nat) : t :=
  if existsb (Nat.eqb worker) (active_workers self)
  then {| max_concurrent := max_concurrent self;
          active_workers := list_remove worker (active_workers self) |}
  else self.

(** The number of workers in flight. *)
Definition activeCount (self : t) : Z := Z.of_nat (length (active_workers self)).

(** What a button handler of the window does next. *)
Inductive Action :=
  | Nothing
  | ShowError (text : string)
  | StartDownload (format_choice : Choice.t).


(** [_download_video]: [idx] is [format_combo.currentIndex()]. *)
Definition _download_video (video_info : option Parser.VideoInfo)
    (best_formats : list Choice.t) (idx : Z) : Action :=
  match video_info, best_formats with
  | None, _ | _, [] => Nothing
  | Some _, _ :: _ =>
      let video_formats := List.filter Parser.is_video best_formats in
      if (idx <? 0) || (Z.of_nat (length video_formats) <=? idx) then Nothing
      else
        match nth_error video_formats (Z.to_nat idx) with
        | Some chosen => StartDownload chosen
        | None => Nothing
        end
  end.


End MainWindow.


(** ** ui/download_card.py: what [update_progress] shows

    The dict is the one [progress.emit] carries; all five keys are there, so
    the defaults of [data.get] are not used. *)

Module DownloadCard.


(** [sep.join(parts)] *)
Fixpoint join (sep : string) (parts : list string) : string :=
  match parts with
  | [] => ""
  | [p] => p
  | p :: rest => p ++ sep ++ join sep rest
  end.


(** The list [parts] built by [update_progress]. *)
Definition parts (data : Downloader.ProgressRecord) : list string :=
  let speed := Downloader.speed_str data in
  let eta := Downloader.eta_str data in
  let downloaded := Downloader.downloaded_str data in
  let total := Downloader.total_str data in
  ((if str_truthy speed && negb (String.eqb speed "N/A") then [("⚡ " ++ speed)%string] else []) ++
   (if str_truthy eta && negb (String.eqb eta "N/A") then [("⏱ " ++ eta)%string] else []) ++
   (if str_truthy downloaded
    then [if str_truthy total && negb (String.eqb total "?")
          then (downloaded ++ " / " ++ total)%string
          else downloaded]
    else []))%list.

(** The text given to [status_label.setText]. *)
Definition status_text (data : Downloader.ProgressRecord) : string :=
  match parts data with
  | [] => PyFmt.fmt_f 0 (Downloader.percent data) ++ "%"
  | ps => join "  •  " ps
  end.

End DownloadCard.

(** ** core/logger.py: the file handler

    The module keeps [_file_handler]; the logger keeps its list of
    handlers.  A handler is an object, identified here by a number; the log
    file is the list of the messages written to it (a record passes the
    logger's level DEBUG whatever its level, and every handler attached
    writes it).  Opening the log file is taken to succeed. *)

Module Logger.

Record t := {
  _file_handler : option nat;
  handlers : list nat;
  (** the messages in the log file, oldest first *)
  written : list string;
  (** the number of handler objects created so far *)
  created : nat;
}.

(** The module once imported, before [setup_logger] runs. *)
Definition fresh : t :=
  {| _file_handler := None; handlers := []; written := []; created := O |}.

(** [logger.info(message)]: one line per handler attached. *)
Definition info (message : string) (st : t) : t :=
  {| _file_handler := _file_handler st;
     handlers := handlers st;
     written := (written st ++ List.map (fun _ => message) (handlers st))%list;
     created := created st |}.

(** [_file_handler = logging.FileHandler(...)] followed by
    [logger.addHandler(_file_handler)]. *)
Definition attach_file_handler (st : t) : t :=
  {| _file_handler := Some (created st);
     handlers := (handlers st ++ [created st])%list;
     written := written st;
     created := S (created st) |}.

(** [list.remove(h)] when [h] is in the list: its first occurrence goes. *)
Fixpoint remove_first (h : nat) (l : list nat) : list nat :=
  match l with
  | [] => []
  | x :: l' => if Nat.eqb x h then l' else x :: remove_first h l'
  end.

(** [logger.removeHandler(h)], [h.close()] and [_file_handler = None]. *)
Definition detach_file_handler (h : nat) (st : t) : t :=
  {| _file_handler := None;
     handlers := remove_first h (handlers st);
     written := written st;
     created := created st |}.

(** ["=" * 60] *)
Definition rule : string :=
  "============================================================".

Definition setup_logger (log_to_file : bool) (st : t) : t :=
  match handlers st with
  | _ :: _ => st
  | [] =>
      let st := if log_to_file then attach_file_handler st else st in
      info rule (info "YouTube Downloader запущен" (info rule st))
  end.

Definition set_log_to_file (enabled : bool) (st : t) : t :=
  match enabled, _file_handler st with
  | true, None => info "Логирование в файл включено" (attach_file_handler st)
  | false, Some h => detach_file_handler h (info "Логирование в файл выключено" st)
  | _, _ => st
  end.

End Logger.

(** ** Vocabulary of the statements *)

Module Text.

(** The two characters of a number below 100, tens first. *)
Definition digit (k : Z) : ascii := ascii_of_nat (48 + Z.to_nat k).

Definition two_digits (n : Z) : string :=
  String (digit (n / 10)) (String (digit (n mod 10)) EmptyString).

(** The text after the first space of [s], and the text before it. *)
Fixpoint unit_of (s : string) : string :=
  match s with
  | EmptyString => EmptyString
  | String c s' => if Ascii.eqb c " " then s' else unit_of s'
  end.

Fixpoint number_of (s : string) : string :=
  match s with
  | EmptyString => EmptyString
  | String c s' => if Ascii.eqb c " " then EmptyString else String c (number_of s')
  end.

(** [x] brought into the interval from [lo] to [hi]. *)
Definition clamp (lo hi x : Q) : Q :=
  if Qlt_le_dec x lo then lo else if Qlt_le_dec hi x then hi else x.

(** The first of a list of fields that holds a number other than zero, and 0
    when none does. *)
Fixpoint first_nonzero (fields : list (option Q)) : Q :=
  match fields with
  | [] => 0
  | None :: rest => first_nonzero rest
  | Some v :: rest => if Qeq_bool v 0 then first_nonzero rest else v
  end.

(** The byte count and the total an event announces: the total is the exact
    one when the event has it, else the estimate. *)
Definition event_downloaded (d : Downloader.RawEvent) : Q :=
  first_nonzero [Downloader.downloaded_bytes d].

Definition event_total (d : Downloader.RawEvent) : Q :=
  first_nonzero [Downloader.total_bytes d; Downloader.total_bytes_estimate d].

(** An in-progress event with these byte counts, only an estimate of the
    total, and nothing else. *)
Definition downloading_estimated (downloaded estimate : option Q)
  : Downloader.RawEvent :=
  {| Downloader.status := "downloading";
     Downloader.downloaded_bytes := downloaded;
     Downloader.total_bytes := None;
     Downloader.total_bytes_estimate := estimate;
     Downloader.speed := None;
     Downloader.eta := None |}.

Fixpoint no_space (s : string) : bool :=
  match s with
  | EmptyString => true
  | String c s' => negb (Ascii.eqb c " ") && no_space s'
  end.

(** The loop of [get_best_formats] as a recursive function of the formats
    still to visit and of the heights seen so far. *)
Definition emits (seen : gset Z) (f : Parser.VideoFormat.t) : bool :=
  Parser.VideoFormat.has_video f &&
  negb (Parser.VideoFormat.height f <? 240) &&
  negb (bool_decide (Parser.VideoFormat.height f ∈ seen)).

Fixpoint video_options (seen : gset Z) (fs : list Parser.VideoFormat.t)
  : list Choice.t :=
  match fs with
  | [] => []
  | f :: fs' =>
      if emits seen f
      then Parser.video_choice f ::
           video_options ({[ Parser.VideoFormat.height f ]} ∪ seen) fs'
      else video_options seen fs'
  end.

(** The bitrate of a format, read off its [tbr] field: the number the field
    holds, and 0 when the field is [None]. *)
Definition bitrate (x : Parser.VideoFormat.t) : Q :=
  match Parser.VideoFormat.tbr x with
  | Some kbps => kbps
  | None => 0%Q
  end.

Definition audio_options (fs : list Parser.VideoFormat.t) : list Choice.t :=
  match Parser.py_max bitrate (List.filter Parser.is_audio_only fs) with
  | Some best_audio => [Parser.audio_choice best_audio]
  | None => []
  end.

(** [video_info] with other formats. *)
Definition with_formats (video_info : Parser.VideoInfo)
    (fs : list Parser.VideoFormat.t) : Parser.VideoInfo :=
  {| Parser.url := Parser.url video_info;
     Parser.title := Parser.title video_info;
     Parser.duration := Parser.duration video_info;
     Parser.channel := Parser.channel video_info;
     Parser.thumbnail := Parser.thumbnail video_info;
     Parser.video_id := Parser.video_id video_info;
     Parser.formats := fs |}.

(** A raw entry that is to be left out: its note mentions "storyboard"
    somewhere, in capitals or small letters, or its extension is "mhtml".
    [spelled_at_head word s]: [s] begins with [word] (given in small letters),
    each letter in either case. *)
Definition same_letter (small c : ascii) : bool :=
  Ascii.eqb c small || (nat_of_ascii c + 32 =? nat_of_ascii small)%nat.

Fixpoint spelled_at_head (word s : string) : bool :=
  match word, s with
  | EmptyString, _ => true
  | String _ _, EmptyString => false
  | String w word', String c s' => same_letter w c && spelled_at_head word' s'
  end.

Fixpoint tails (s : string) : list string :=
  s :: match s with
       | EmptyString => []
       | String _ s' => tails s'
       end.

Definition mentions (word s : string) : bool :=
  existsb (spelled_at_head word) (tails s).

Definition left_out (f : Parser.RawFormat) : bool :=
  match Parser.raw_format_note f with
  | Some note => mentions "storyboard" note
  | None => false
  end
  || bool_decide (Parser.raw_ext f = Some "mhtml").

(** The whitespace characters, those for which [str.isspace()] holds, by
    their code points, and the UTF-8 encoding of a code point below 10000
    (hexadecimal).  A blank string is made of whitespace characters only; a
    trimmed one neither begins nor ends with one. *)
Definition utf8 (code : N) : string :=
  let byte := ascii_of_N in
  if (code <? 0x80)%N then String (byte code) ""
  else if (code <? 0x800)%N then
    String (byte (0xC0 + code / 0x40)%N)
      (String (byte (0x80 + code mod 0x40)%N) "")
  else
    String (byte (0xE0 + code / 0x1000)%N)
      (String (byte (0x80 + (code / 0x40) mod 0x40)%N)
         (String (byte (0x80 + code mod 0x40)%N) "")).

Definition whitespace : list string :=
  map utf8
    [0x9; 0xA; 0xB; 0xC; 0xD; 0x1C; 0x1D; 0x1E; 0x1F; 0x20; 0x85; 0xA0; 0x1680;
     0x2000; 0x2001; 0x2002; 0x2003; 0x2004; 0x2005; 0x2006; 0x2007; 0x2008;
     0x2009; 0x200A; 0x2028; 0x2029; 0x202F; 0x205F; 0x3000]%N.

Inductive Blank : string -> Prop :=
  | Blank_empty : Blank ""
  | Blank_more w s : In w whitespace -> Blank s -> Blank (w ++ s).

Definition trimmed (t : string) : Prop :=
  forall w rest, In w whitespace -> t <> w ++ rest /\ t <> rest ++ w.

Definition starts_with (word s : string) : Prop := exists rest, s = word ++ rest.

(** An in-progress event with these byte counts and nothing else. *)
Definition downloading (downloaded total : option Q) : Downloader.RawEvent :=
  {| Downloader.status := "downloading";
     Downloader.downloaded_bytes := downloaded;
     Downloader.total_bytes := total;
     Downloader.total_bytes_estimate := None;
     Downloader.speed := None;
     Downloader.eta := None |}.

(** A raw video-only mp4 format with this id and height, and a video
    whose formats have the heights 144, 240, 360, 1080, 1080 and 720, in that
    order. *)
Definition raw_video (id : string) (h : Z) : Parser.RawFormat :=
  {| Parser.raw_format_id := Some id;
     Parser.raw_ext := Some "mp4";
     Parser.raw_resolution := None;
     Parser.raw_filesize := None;
     Parser.raw_filesize_approx := None;
     Parser.raw_vcodec := Some "avc1";
     Parser.raw_acodec := Some "none";
     Parser.raw_fps := None;
     Parser.raw_tbr := None;
     Parser.raw_format_note := None;
     Parser.raw_height := Some h;
     Parser.raw_width := None |}.

Definition six_heights : Parser.RawInfo :=
  {| Parser.raw_formats :=
       [raw_video "a" 144; raw_video "b" 240; raw_video "c" 360;
        raw_video "d" 1080; raw_video "e" 1080; raw_video "f" 720];
     Parser.raw_title := None;
     Parser.raw_duration := None;
     Parser.raw_channel := None;
     Parser.raw_uploader := None;
     Parser.raw_thumbnail := None;
     Parser.raw_id := None |}.

(** An environment with FFmpeg in /usr/bin and an empty download folder,
    and one without FFmpeg. *)
Definition posix (ffmpeg : string) : OS :=
  {| get_ffmpeg_path := ffmpeg;
     path_exists := fun _ => false;
     path_join := fun a b => a ++ "/" ++ b;
     path_dirname := fun _ => "/usr/bin";
     path_splitext0 := fun p => p |}.

Definition posix_with_ffmpeg : OS := posix "/usr/bin/ffmpeg".
Definition posix_without_ffmpeg : OS := posix "".

(** An event that is not terminal, and a computation that only adds such
    events and never clears the flag. *)
Definition quiet (e : Downloader.Event) : Prop := Downloader.is_terminal e = false.

Definition silent {A} (m : Downloader.M A) : Prop :=
  forall st r st', m st = (r, st') ->
    (exists evs, Downloader.emitted st' = (Downloader.emitted st ++ evs)%list /\
                 Forall quiet evs) /\
    (Downloader._cancelled st = true -> Downloader._cancelled st' = true).

(** The end of [run] after the call of yt-dlp: the flag, possibly just set
    by the window, decides whether the closing events go out. *)
Definition conclude (w : Downloader.World) (st : Downloader.WState)
    (evs : list Downloader.Event) : Downloader.WState :=
  if Downloader.late_cancel w || Downloader._cancelled st
  then {| Downloader._cancelled := true; Downloader.emitted := Downloader.emitted st |}
  else {| Downloader._cancelled := false;
          Downloader.emitted := (Downloader.emitted st ++ evs)%list |}.

(** A worker for the 1080p option, and three worlds: in the first the
    window cancels between two callbacks, in the second it cancels and
    yt-dlp then fails on its own, in the third nobody cancels and yt-dlp
    returns. *)
Definition worker_1080 : Downloader.Worker :=
  {| Downloader.url := "https://youtu.be/dQw4w9WgXcQ";
     Downloader.format_choice :=
       Parser.video_choice (Parser.format_of_raw (raw_video "d" 1080));
     Downloader.output_dir := "/home/u/Downloads" |}.

Definition world_of (steps : list Downloader.EngineStep)
    (ending : Downloader.EngineEnd) : Downloader.World :=
  {| Downloader.os := posix_with_ffmpeg;
     Downloader.engine := fun _ _ =>
       {| Downloader.steps := steps; Downloader.ending := ending |};
     Downloader.late_cancel := false |}.

Definition quarter : Downloader.RawEvent :=
  downloading (Some 512000%Q) (Some 2048000%Q).

Definition cancelled_between_callbacks : Downloader.World :=
  world_of [Downloader.Callback quarter; Downloader.CancelRequest;
            Downloader.Callback quarter]
           (Downloader.Returns "/home/u/Downloads/v.mp4").

Definition cancelled_then_failed : Downloader.World :=
  world_of [Downloader.CancelRequest] (Downloader.Raises "network unreachable").

Definition undisturbed : Downloader.World :=
  world_of [Downloader.Callback quarter]
           (Downloader.Returns "/home/u/Downloads/v.mp4").

(** The formats of a given height, and the first format of a list that has
    video at a given height. *)
Definition of_height (h : Z) (f : Parser.VideoFormat.t) : bool :=
  Parser.VideoFormat.height f =? h.

Definition first_video_of_height (h : Z) (fs : list Parser.VideoFormat.t)
  : option Parser.VideoFormat.t :=
  List.find (fun f => Parser.VideoFormat.has_video f && of_height h f) fs.

(** A format the video loop can use, whatever was seen before. *)
Definition usable_video (f : Parser.VideoFormat.t) : bool :=
  Parser.VideoFormat.has_video f && negb (Parser.VideoFormat.height f <? 240).

(** A raw entry with a height and no codec key at all. *)
Definition codecless : Parser.RawFormat :=
  {| Parser.raw_format_id := Some "x";
     Parser.raw_ext := Some "mp4";
     Parser.raw_resolution := None;
     Parser.raw_filesize := None;
     Parser.raw_filesize_approx := None;
     Parser.raw_vcodec := None;
     Parser.raw_acodec := Some "";
     Parser.raw_fps := None;
     Parser.raw_tbr := None;
     Parser.raw_format_note := None;
     Parser.raw_height := Some 1080;
     Parser.raw_width := None |}.

(** A world in which the window cancels after the last callback and yt-dlp
    then returns. *)
Definition cancelled_after_last_callback : Downloader.World :=
  world_of [Downloader.Callback quarter; Downloader.CancelRequest]
           (Downloader.Returns "/home/u/Downloads/v.mp4").

(** A worker for the audio option of a video whose only format is an
    audio-only one, and a world with FFmpeg in which the converted mp3
    exists once yt-dlp has returned. *)
Definition worker_audio : Downloader.Worker :=
  {| Downloader.url := "https://youtu.be/dQw4w9WgXcQ";
     Downloader.format_choice :=
       Parser.audio_choice
         (Parser.VideoFormat.__init__ "140" "m4a" "audio only" None (Some "none")
            (Some "mp4a") None (Some (129 # 1)%Q) "medium" None None);
     Downloader.output_dir := "/home/u/Downloads" |}.

Definition converted_to_mp3 : Downloader.World :=
  {| Downloader.os :=
       {| get_ffmpeg_path := "/usr/bin/ffmpeg";
          path_exists := fun p => String.eqb p "/home/u/Downloads/a.mp3";
          path_join := fun a b => a ++ "/" ++ b;
          path_dirname := fun _ => "/usr/bin";
          path_splitext0 := fun _ => "/home/u/Downloads/a" |};
     Downloader.engine := fun _ _ =>
       {| Downloader.steps := [];
          Downloader.ending := Downloader.Returns "/home/u/Downloads/a.webm" |};
     Downloader.late_cancel := false |}.

Definition is_callback (s : Downloader.EngineStep) : bool :=
  match s with
  | Downloader.Callback _ => true
  | Downloader.CancelRequest => false
  | Downloader.CancelDuringCallback _ => true
  end.

(** A window with three workers under way. *)
Definition three_running : MainWindow.t :=
  {| MainWindow.max_concurrent := 3; MainWindow.active_workers := [1; 2; 3]%nat |}.

(** The text the card is to show for an in-progress event, in three parts:
    the speed, or dots when the event has none or a zero one; the time left,
    or dots when the event has none, and nothing at all when it is negative;
    the downloaded size, followed by the total when it is positive. *)
Definition speed_part (d : Downloader.RawEvent) : string :=
  match Downloader.speed d with
  | Some v =>
      if Qeq_bool v 0 then "⚡ ..." else "⚡ " ++ Downloader._format_speed v
  | None => "⚡ ..."
  end.

Definition eta_part (d : Downloader.RawEvent) : string :=
  match Downloader.eta d with
  | Some e => if e <? 0 then "" else "  •  ⏱ " ++ Downloader._format_eta e
  | None => "  •  ⏱ ..."
  end.

Definition size_part (d : Downloader.RawEvent) : string :=
  Downloader._format_bytes (event_downloaded d) ++
  (if Qlt_le_dec 0 (event_total d)
   then " / " ++ Downloader._format_bytes (event_total d)
   else "").

(** An in-progress event with every field set. *)
Definition halfway : Downloader.RawEvent :=
  {| Downloader.status := "downloading";
     Downloader.downloaded_bytes := Some 1048576%Q;
     Downloader.total_bytes := Some 2097152%Q;
     Downloader.total_bytes_estimate := None;
     Downloader.speed := Some 2048%Q;
     Downloader.eta := Some 45 |}.

(** The logger after [setup_logger] and a series of calls of
    [set_log_to_file]. *)
Definition toggled (log_to_file : bool) (toggles : list bool) : Logger.t :=
  fold_left (fun st enabled => Logger.set_log_to_file enabled st) toggles
    (Logger.setup_logger log_to_file Logger.fresh).

(** The handlers the logger should have for a given [_file_handler]. *)
Definition handlers_for (h : option nat) : list nat :=
  match h with
  | Some x => [x]
  | None => []
  end.

End Text.

(** * Properties *)

(** ** Formatting *)

Section Formatting.
Import PyFmt Downloader Text.

Example str_int_0 : str_int 0 = "0". Proof. reflexivity. Qed.
Example str_int_m5 : str_int (-5) = "-5". Proof. reflexivity. Qed.
Example fmt_02d_5 : fmt_02d 5 = "05". Proof. reflexivity. Qed.
Example fmt_f_1 : fmt_f 1 (2048 # 1024) = "2.0". Proof. vm_compute. reflexivity. Qed.
Example fmt_f_2 : fmt_f 2 (5 # 4) = "1.25". Proof. vm_compute. reflexivity. Qed.
Example fmt_f_3 : fmt_f 1 (1 # 4) = "0.2". Proof. vm_compute. reflexivity. Qed.
Example fmt_f_4 : fmt_f 1 (3 # 4) = "0.8". Proof. vm_compute. reflexivity. Qed.
Example fmt_f_5 : fmt_f 0 (1023 # 2) = "512". Proof. vm_compute. reflexivity. Qed.
Example fmt_f_6 : fmt_f 2 (1001 # 1000) = "1.00". Proof. vm_compute. reflexivity. Qed.
Example fmt_f_7 : fmt_f 0 (- 3 # 10) = "-0". Proof. vm_compute. reflexivity. Qed.


Lemma no_space_app a b : no_space (a ++ b) = no_space a && no_space b.
Proof.
  induction a as [|c a IH]; simpl; [reflexivity|].
  rewrite IH. apply andb_assoc.
Qed.

Lemma unit_of_app a u : no_space a = true -> unit_of (a ++ String " " u) = u.
Proof.
  induction a as [|c a IH]; simpl; intros H; [reflexivity|].
  apply andb_prop in H as [Hc Ha].
  destruct (Ascii.eqb c " "); [discriminate|]. auto.
Qed.

Lemma number_of_app a u : no_space a = true -> number_of (a ++ String " " u) = a.
Proof.
  induction a as [|c a IH]; simpl; intros H; [reflexivity|].
  apply andb_prop in H as [Hc Ha].
  destruct (Ascii.eqb c " "); [discriminate|]. f_equal; auto.
Qed.

Lemma uint_no_space d : no_space (NilEmpty.string_of_uint d) = true.
Proof. induction d; simpl; auto. Qed.

Lemma str_int_no_space n : no_space (str_int n) = true.
Proof.
  unfold str_int. destruct (Z.to_int n) as [d|d]; simpl;
    destruct d; simpl; auto using uint_no_space.
Qed.

Lemma frac_digits_no_space p : forall n, no_space (frac_digits p n) = true.
Proof.
  induction p as [|p IH]; intros n; simpl; [reflexivity|].
  rewrite no_space_app, IH, str_int_no_space. reflexivity.
Qed.

Lemma fmt_f_no_space p x : no_space (fmt_f p x) = true.
Proof.
  unfold fmt_f.
  assert (Hb : forall n, no_space
     (str_int (n / 10 ^ Z.of_nat p) ++
      match p with
      | O => ""
      | S _ => "." ++ frac_digits p (n mod 10 ^ Z.of_nat p)
      end) = true).
  { intros n. rewrite no_space_app, str_int_no_space. simpl.
    destruct p; [reflexivity|].
    change ("." ++ ?s) with (String "." s). cbn [no_space].
    rewrite frac_digits_no_space. reflexivity. }
  destruct (Qlt_le_dec x 0); [|apply Hb].
  change ("-" ++ ?s) with (String "-" s). cbn [no_space]. rewrite Hb. reflexivity.
Qed.

Lemma fmt_02d_two_digits n : 0 <= n < 100 -> fmt_02d n = two_digits n.
Proof.
  intros Hn.
  assert (Hall : forallb (fun k => String.eqb (fmt_02d (Z.of_nat k)) (two_digits (Z.of_nat k)))
                   (seq 0 100) = true) by (vm_compute; reflexivity).
  rewrite forallb_forall in Hall.
  specialize (Hall (Z.to_nat n)).
  rewrite Z2Nat.id in Hall by lia.
  apply String.eqb_eq, Hall, in_seq. lia.
Qed.


Lemma sized_text number u :
  no_space number = true ->
  number_of (number ++ String " " u) = number /\ unit_of (number ++ String " " u) = u.
Proof. intros H. split; [apply number_of_app | apply unit_of_app]; exact H. Qed.

Ltac q_absurd :=
  exfalso;
  match goal with
  | H1 : (?x < ?a)%Q, H2 : (?b <= ?x)%Q |- _ =>
      apply (Qlt_irrefl x); apply (Qlt_le_trans _ a); [exact H1|];
      apply (Qle_trans _ b); [|exact H2];
      apply Qle_bool_imp_le; vm_compute; reflexivity
  end.

Ltac q_cases :=
  repeat match goal with
  | |- context [Qlt_le_dec ?a ?b] => destruct (Qlt_le_dec a b)
  end.

(** C6.  Sizes are rendered in B below 1024, in KB below 1024^2, in MB below
    1024^3 and in GB from there on, rates in B/s, KB/s and MB/s with the same
    thresholds, the number being the value divided by the unit; 512 gives
    "512 B", 2048 gives "2.0 KB" and 5242880 gives "5.0 MB". *)
Theorem format_bytes_and_speed_units (x : Q) :
  ((x < 1024)%Q ->
     number_of (_format_bytes x) = fmt_f 0 x /\ unit_of (_format_bytes x) = "B") /\
  ((1024 <= x)%Q /\ (x < 1024 ^ 2)%Q ->
     number_of (_format_bytes x) = fmt_f 1 (x / 1024) /\
     unit_of (_format_bytes x) = "KB") /\
  ((1024 ^ 2 <= x)%Q /\ (x < 1024 ^ 3)%Q ->
     number_of (_format_bytes x) = fmt_f 1 (x / 1024 ^ 2) /\
     unit_of (_format_bytes x) = "MB") /\
  ((1024 ^ 3 <= x)%Q ->
     number_of (_format_bytes x) = fmt_f 2 (x / 1024 ^ 3) /\
     unit_of (_format_bytes x) = "GB") /\
  ((x < 1024)%Q ->
     number_of (_format_speed x) = fmt_f 0 x /\ unit_of (_format_speed x) = "B/s") /\
  ((1024 <= x)%Q /\ (x < 1024 ^ 2)%Q ->
     number_of (_format_speed x) = fmt_f 1 (x / 1024) /\
     unit_of (_format_speed x) = "KB/s") /\
  ((1024 ^ 2 <= x)%Q ->
     number_of (_format_speed x) = fmt_f 1 (x / 1024 ^ 2) /\
     unit_of (_format_speed x) = "MB/s") /\
  _format_bytes 512 = "512 B" /\
  _format_bytes 2048 = "2.0 KB" /\
  _format_bytes 5242880 = "5.0 MB".
Proof.
  assert (Hex : _format_bytes 512 = "512 B" /\ _format_bytes 2048 = "2.0 KB" /\
                _format_bytes 5242880 = "5.0 MB")
    by (vm_compute; repeat split; reflexivity).
  destruct Hex as (E1 & E2 & E3).
  repeat match goal with |- _ /\ _ => split end; try assumption;
    unfold _format_bytes, _format_speed; intros;
    repeat match goal with H : _ /\ _ |- _ => destruct H end;
    q_cases;
    solve [ split; [apply number_of_app | apply unit_of_app]; apply fmt_f_no_space
          | q_absurd ].
Qed.

(** Against C4 as worded: a negative ETA is rendered "N/A", not "unknown",
    and an absent one "...". *)
Lemma format_eta_negative_is_not_unknown :
  _format_eta (-5) = "N/A" /\ _format_eta (-5) <> "unknown" /\
  eta_str (hook_record {| status := "downloading"; downloaded_bytes := None;
                          total_bytes := None; total_bytes_estimate := None;
                          speed := None; eta := None |}) = "...".
Proof. split; [vm_compute; reflexivity | split; [discriminate | reflexivity]]. Qed.

(** C4 (amended).  A non-negative ETA of at least one hour is rendered
    H:MM:SS and a shorter one M:SS, minutes and seconds on two digits
    (45 gives "0:45", 3725 gives "1:02:05"); a negative ETA is rendered
    "N/A", and the progress record of an event without ETA carries "...". *)
Theorem format_eta_renders (seconds : Z) :
  (seconds < 0 -> _format_eta seconds = "N/A") /\
  (0 <= seconds < 3600 ->
     _format_eta seconds =
       str_int (seconds / 60) ++ ":" ++ two_digits (seconds mod 60)) /\
  (3600 <= seconds ->
     _format_eta seconds =
       str_int (seconds / 3600) ++ ":" ++ two_digits (seconds mod 3600 / 60)
         ++ ":" ++ two_digits (seconds mod 60)) /\
  _format_eta 45 = "0:45" /\
  _format_eta 3725 = "1:02:05" /\
  (forall d, eta d = None -> eta_str (hook_record d) = "...") /\
  (forall d e, eta d = Some e -> eta_str (hook_record d) = _format_eta e).
Proof.
  split; [|split; [|split; [|split; [|split; [|split]]]]].
  - intros H. unfold _format_eta.
    destruct (Z.ltb_spec seconds 0); [reflexivity | lia].
  - intros H. unfold _format_eta.
    destruct (Z.ltb_spec seconds 0); [lia|].
    rewrite (Z.div_small seconds 3600), (Z.mod_small seconds 3600) by lia.
    cbn [Z.gtb Z.compare].
    rewrite fmt_02d_two_digits; [reflexivity|].
    pose proof (Z.mod_pos_bound seconds 60). lia.
  - intros H. unfold _format_eta.
    destruct (Z.ltb_spec seconds 0); [lia|].
    assert (Hh : 0 < seconds / 3600) by (apply Z.div_str_pos; lia).
    destruct (Z.gtb_spec (seconds / 3600) 0); [|lia].
    pose proof (Z.mod_pos_bound seconds 3600).
    pose proof (Z.mod_pos_bound (seconds mod 3600) 60).
    assert (seconds mod 3600 / 60 < 60) by (apply Z.div_lt_upper_bound; lia).
    assert (0 <= seconds mod 3600 / 60) by (apply Z.div_pos; lia).
    rewrite !fmt_02d_two_digits by lia.
    rewrite (Z.mod_mod_divide seconds 3600 60) by (exists 60; reflexivity).
    reflexivity.
  - vm_compute; reflexivity.
  - vm_compute; reflexivity.
  - intros d H. unfold hook_record. cbn [eta_str]. rewrite H. reflexivity.
  - intros d e H. unfold hook_record. cbn [eta_str]. rewrite H. reflexivity.
Qed.

End Formatting.

(** ** The progress record *)

Section Progress.
Import Downloader Text.

Lemma hook_downloaded_event d : hook_downloaded d = event_downloaded d.
Proof.
  unfold hook_downloaded, event_downloaded, num_or, num_truthy, first_nonzero.
  destruct (downloaded_bytes d) as [v|]; [|reflexivity].
  destruct (Qeq_bool v 0); reflexivity.
Qed.

Lemma hook_total_event d : hook_total d = event_total d.
Proof.
  unfold hook_total, event_total, opt_or, num_or, num_truthy, first_nonzero.
  destruct (total_bytes d) as [a|].
  - destruct (Qeq_bool a 0) eqn:Ea; cbn [negb].
    + destruct (total_bytes_estimate d) as [b|]; [|reflexivity].
      destruct (Qeq_bool b 0); reflexivity.
    + rewrite Ea. reflexivity.
  - destruct (total_bytes_estimate d) as [b|]; [|reflexivity].
    destruct (Qeq_bool b 0); reflexivity.
Qed.

Lemma progress_hook_downloading d st :
  status d = "downloading" -> _cancelled st = false ->
  _progress_hook d st =
    (Ok tt, {| _cancelled := false;
               emitted := emitted st ++ [Progress (hook_record d)] |}).
Proof.
  intros Hs Hc. unfold _progress_hook.
  change ((read_cancelled ≫= ?f) st) with (f (_cancelled st) st).
  rewrite Hc, Hs. cbv beta iota.
  change ("downloading" =? "downloading")%string with true. cbv iota.
  unfold emit. rewrite Hc. reflexivity.
Qed.

(** C5.  For an in-progress event (whose byte count is not negative) that
    reaches a worker not cancelled, the callback emits one progress record
    and nothing else; its percentage is downloaded/total*100 brought into the
    interval from 0 to 100 when the total the event announces (the exact one,
    else the estimate) is positive, and 0 when it is not (zero, missing or
    negative): no division takes place then.  512000 of 2048000 gives 25,
    also when 2048000 is only the estimate, and 0 of 0 gives 0, on exact
    numbers and on binary64 floats alike. *)
Theorem percent_clamped (d : RawEvent) (st : WState) :
  status d = "downloading" ->
  _cancelled st = false ->
  (0 <= event_downloaded d)%Q ->
  (exists r,
     _progress_hook d st =
       (Ok tt, {| _cancelled := false;
                  emitted := emitted st ++ [Progress r] |}) /\
     ((0 < event_total d)%Q ->
        (percent r == clamp 0 100 (event_downloaded d / event_total d * 100))%Q) /\
     (~ (0 < event_total d)%Q -> (percent r == 0)%Q)) /\
  (exists r,
     _progress_hook (downloading (Some 512000%Q) (Some 2048000%Q)) init =
       (Ok tt, {| _cancelled := false; emitted := [Progress r] |}) /\
     (percent r == 25)%Q) /\
  (exists r,
     _progress_hook (downloading_estimated (Some 512000%Q) (Some 2048000%Q)) init =
       (Ok tt, {| _cancelled := false; emitted := [Progress r] |}) /\
     (percent r == 25)%Q) /\
  (exists r,
     _progress_hook (downloading (Some 0%Q) (Some 0%Q)) init =
       (Ok tt, {| _cancelled := false; emitted := [Progress r] |}) /\
     (percent r == 0)%Q) /\
  (exists r,
     _progress_hook (downloading (Some 0%Q) None) init =
       (Ok tt, {| _cancelled := false; emitted := [Progress r] |}) /\
     (percent r == 0)%Q) /\
  percent_binary64 512000%float 2048000%float = 25%float /\
  percent_binary64 0%float 0%float = 0%float.
Proof.
  intros Hs Hc Hd.
  split; [|split; [|split; [|split; [|split; [|split]]]]].
  - exists (hook_record d). split; [apply progress_hook_downloading; assumption|].
    cbn [percent hook_record]. unfold hook_percent.
    rewrite hook_downloaded_event, hook_total_event. split.
    + intros Ht. unfold py_min, clamp.
      set (x := (event_downloaded d / event_total d * 100)%Q).
      assert (Hx : (0 <= x)%Q).
      { unfold x. apply Qmult_le_0_compat; [|discriminate].
        apply Qmult_le_0_compat; [exact Hd|].
        apply Qlt_le_weak, Qinv_lt_0_compat, Ht. }
      destruct (Qlt_le_dec 0 (event_total d)) as [_|Hle];
        [|exfalso; exact (Qlt_not_le _ _ Ht Hle)].
      destruct (Qlt_le_dec x 0) as [Hneg|_];
        [exfalso; exact (Qlt_not_le _ _ Hneg Hx)|].
      destruct (Qlt_le_dec 100 x); reflexivity.
    + intros Ht.
      destruct (Qlt_le_dec 0 (event_total d)); [contradiction | reflexivity].
  - exists (hook_record (downloading (Some 512000%Q) (Some 2048000%Q))).
    split; [apply (progress_hook_downloading _ init); reflexivity|].
    vm_compute. reflexivity.
  - exists (hook_record (downloading_estimated (Some 512000%Q) (Some 2048000%Q))).
    split; [apply (progress_hook_downloading _ init); reflexivity|].
    vm_compute. reflexivity.
  - exists (hook_record (downloading (Some 0%Q) (Some 0%Q))).
    split; [apply (progress_hook_downloading _ init); reflexivity|].
    vm_compute. reflexivity.
  - exists (hook_record (downloading (Some 0%Q) None)).
    split; [apply (progress_hook_downloading _ init); reflexivity|].
    vm_compute. reflexivity.
  - vm_compute. reflexivity.
  - vm_compute. reflexivity.
Qed.

Lemma percent_clamped_witness :
  exists r,
    _progress_hook (downloading (Some 3%Q) (Some 4%Q)) init =
      (Ok tt, {| _cancelled := false; emitted := [Progress r] |}) /\
    (percent r == 75)%Q.
Proof.
  destruct (percent_clamped (downloading (Some 3%Q) (Some 4%Q)) init)
    as [[r (He & Hp & _)] _].
  - reflexivity.
  - reflexivity.
  - vm_compute. discriminate.
  - exists r. split; [exact He|].
    rewrite Hp; [vm_compute; reflexivity | vm_compute; reflexivity].
Defined.

End Progress.

(** ** The format list *)

Section Formats.
Import Parser Text.

(** *** The loop as a function *)

Lemma video_step_emits seen result f :
  video_step (seen, result) f =
    if emits seen f
    then ({[ VideoFormat.height f ]} ∪ seen, (result ++ [video_choice f])%list)
    else (seen, result).
Proof.
  unfold video_step, emits.
  destruct (VideoFormat.has_video f); simpl; [|reflexivity].
  destruct (VideoFormat.height f <? 240); simpl; [reflexivity|].
  destruct (bool_decide (VideoFormat.height f ∈ seen)); reflexivity.
Qed.

Lemma video_loop fs : forall seen result,
  snd (fold_left video_step fs (seen, result)) =
    (result ++ video_options seen fs)%list.
Proof.
  induction fs as [|f fs IH]; intros seen result; cbn [fold_left video_options].
  - symmetry. apply app_nil_r.
  - rewrite video_step_emits. destruct (emits seen f).
    + rewrite IH, <- app_assoc. reflexivity.
    + apply IH.
Qed.

Lemma get_best_formats_split video_info :
  get_best_formats video_info =
    (video_options ∅ (formats video_info) ++ audio_options (formats video_info))%list.
Proof.
  unfold get_best_formats, audio_options.
  pose proof (video_loop (formats video_info) ∅ []) as H.
  destruct (fold_left video_step (formats video_info) (∅, [])) as [seen result].
  simpl in H. subst result.
  change (fun x => float_or0 (VideoFormat.tbr x)) with bitrate.
  destruct (py_max bitrate (List.filter is_audio_only (formats video_info)));
    [reflexivity | symmetry; apply app_nil_r].
Qed.

(** *** What the video loop emits *)

Lemma emits_true seen f :
  emits seen f = true ->
  VideoFormat.has_video f = true /\ 240 <= VideoFormat.height f /\
  VideoFormat.height f ∉ seen.
Proof.
  unfold emits. intros H.
  apply andb_prop in H as [H H3]. apply andb_prop in H as [H1 H2].
  apply negb_true_iff in H2, H3.
  apply Z.ltb_ge in H2. apply bool_decide_eq_false in H3. auto.
Qed.

Lemma video_options_from fs : forall seen c,
  In c (video_options seen fs) ->
  exists f, In f fs /\ c = video_choice f /\ VideoFormat.has_video f = true /\
            240 <= VideoFormat.height f /\ VideoFormat.height f ∉ seen.
Proof.
  induction fs as [|f fs IH]; intros seen c Hc; simpl in Hc; [contradiction|].
  destruct (emits seen f) eqn:E.
  - destruct Hc as [<-|Hc].
    + apply emits_true in E as (? & ? & ?). exists f. simpl. auto.
    + apply IH in Hc as (g & ? & ? & ? & ? & Hg). exists g. simpl.
      repeat split; auto. set_solver.
  - apply IH in Hc as (g & ? & ? & ? & ? & ?). exists g. simpl. auto.
Qed.

Lemma video_options_heights_fresh fs seen h :
  In h (map Choice.height (video_options seen fs)) -> h ∉ seen.
Proof.
  rewrite in_map_iff. intros (c & <- & Hc).
  apply video_options_from in Hc as (f & _ & -> & _ & _ & ?). assumption.
Qed.


Lemma video_options_is_video fs : forall seen,
  Forall (fun c => is_video c = true) (video_options seen fs).
Proof.
  induction fs as [|f fs IH]; intros seen; simpl; [constructor|].
  destruct (emits seen f); [constructor; [reflexivity|]|]; apply IH.
Qed.

Lemma audio_options_is_audio fs :
  Forall (fun c => is_audio c = true /\ is_video c = false) (audio_options fs).
Proof.
  unfold audio_options. destruct (py_max _ _); repeat constructor.
Qed.

Lemma filter_all {A} (p : A -> bool) l :
  Forall (fun x => p x = true) l -> List.filter p l = l.
Proof. induction 1 as [|x l Hx _ IH]; simpl; [|rewrite Hx, IH]; reflexivity. Qed.

Lemma filter_none {A} (p : A -> bool) l :
  Forall (fun x => p x = false) l -> List.filter p l = [].
Proof. induction 1 as [|x l Hx _ IH]; simpl; [|rewrite Hx, IH]; reflexivity. Qed.

Lemma video_is_not_audio c : is_video c = true -> is_audio c = false.
Proof.
  unfold is_video, is_audio. intros H. apply String.eqb_eq in H. rewrite H.
  reflexivity.
Qed.

Lemma videos_of_get_best_formats video_info :
  List.filter is_video (get_best_formats video_info) =
    video_options ∅ (formats video_info).
Proof.
  rewrite get_best_formats_split, List.filter_app.
  rewrite (filter_all _ _ (video_options_is_video _ _)).
  rewrite filter_none; [apply app_nil_r|].
  eapply Forall_impl; [apply audio_options_is_audio|]. simpl. tauto.
Qed.

Lemma audios_of_get_best_formats video_info :
  List.filter is_audio (get_best_formats video_info) =
    audio_options (formats video_info).
Proof.
  rewrite get_best_formats_split, List.filter_app.
  rewrite filter_none.
  - apply filter_all. eapply Forall_impl; [apply audio_options_is_audio|].
    simpl. tauto.
  - eapply Forall_impl; [apply video_options_is_video|].
    apply video_is_not_audio.
Qed.

(** *** [max] *)



Lemma audio_options_length fs : (length (audio_options fs) <= 1)%nat.
Proof. unfold audio_options. destruct (py_max _ _); simpl; lia. Qed.


(** *** Small runs of [get_best_formats] *)

Example py_max_first_of_ties :
  py_max (fun p : string * Q => snd p)
    [("a", 1%Q); ("b", 3%Q); ("c", 3%Q); ("d", 2%Q)] = Some ("b", 3%Q).
Proof. reflexivity. Qed.

Example best_formats_video_and_audio video_info :
  map (fun c => (Choice.format_id c, Choice.height c, Choice.type c))
    (get_best_formats (with_formats video_info
       [VideoFormat.__init__ "22" "mp4" "1280x720" None (Some "avc1") (Some "mp4a")
          None None "720p" (Some 720) (Some 1280);
        VideoFormat.__init__ "18" "mp4" "640x360" None (Some "avc1") (Some "mp4a")
          None None "360p" (Some 360) (Some 640);
        VideoFormat.__init__ "139" "m4a" "audio only" None (Some "none") (Some "mp4a")
          None (Some (48 # 1)%Q) "low" None None;
        VideoFormat.__init__ "140" "m4a" "audio only" None (Some "none") (Some "mp4a")
          None (Some (129 # 1)%Q) "medium" None None;
        VideoFormat.__init__ "160" "mp4" "256x144" None (Some "avc1") (Some "none")
          None None "144p" (Some 144) (Some 256)])) =
  [("22", 720, "video"); ("18", 360, "video"); ("140", 0, "audio")].
Proof. vm_compute. reflexivity. Qed.

Example storyboards_are_dropped :
  map keep_raw
    [raw_video "d" 1080;
     {| raw_format_id := Some "sb0"; raw_ext := Some "mhtml"; raw_resolution := None;
        raw_filesize := None; raw_filesize_approx := None; raw_vcodec := Some "none";
        raw_acodec := Some "none"; raw_fps := None; raw_tbr := None;
        raw_format_note := Some "Storyboard"; raw_height := Some 90;
        raw_width := Some 160 |}] = [true; false].
Proof. vm_compute. reflexivity. Qed.


(** *** Formats without a height *)

Lemma video_options_skip f after : forall before seen,
  VideoFormat.height f < 240 ->
  video_options seen (before ++ f :: after) = video_options seen (before ++ after).
Proof.
  intros before seen Hf. revert seen.
  induction before as [|g before IH]; intros seen; simpl.
  - unfold emits. destruct (Z.ltb_spec (VideoFormat.height f) 240); [|lia].
    rewrite andb_false_r. reflexivity.
  - destruct (emits seen g); rewrite IH; reflexivity.
Qed.

(** C10.  A format built without a height has height 0, also when it comes
    from a raw dict whose height is missing, and whatever its video codec it
    adds no video option: the video options of a list of formats are those
    of the list without it.  A format with codec "avc1" and no height, alone,
    yields no option at all. *)
Theorem absent_height_is_never_a_video_option
    (format_id ext resolution : string) (filesize : option Q)
    (vcodec acodec : option string) (fps : option Z) (tbr : option Q)
    (format_note : string) (width : option Z)
    (video_info : VideoInfo) (before after : list VideoFormat.t) :
  VideoFormat.height
    (VideoFormat.__init__ format_id ext resolution filesize vcodec acodec
       fps tbr format_note None width) = 0 /\
  List.filter is_video
    (get_best_formats (with_formats video_info
       (before ++
        VideoFormat.__init__ format_id ext resolution filesize vcodec acodec
          fps tbr format_note None width :: after))) =
  List.filter is_video
    (get_best_formats (with_formats video_info (before ++ after))) /\
  (forall r, raw_height r = None -> VideoFormat.height (format_of_raw r) = 0) /\
  get_best_formats (with_formats video_info
    [VideoFormat.__init__ "137" "mp4" "1920x1080" None (Some "avc1") (Some "none")
       None None "1080p" None None]) = [].
Proof.
  split; [reflexivity|]. split; [|split].
  - rewrite !videos_of_get_best_formats. simpl.
    apply video_options_skip. simpl. lia.
  - intros r Hr. unfold format_of_raw. simpl. rewrite Hr. reflexivity.
  - vm_compute. reflexivity.
Qed.

(** *** The order of the options *)

Lemma insert_by_In {A} (key : A -> Z) x l y :
  In y (insert_by key x l) <-> y = x \/ In y l.
Proof.
  induction l as [|z l IH]; simpl; [intuition|].
  destruct (key z <? key x); simpl; rewrite ?IH; intuition.
Qed.

Lemma insert_by_sorted {A} (key : A -> Z) x l :
  StronglySorted (fun a b => key a <= key b) l ->
  StronglySorted (fun a b => key a <= key b) (insert_by key x l).
Proof.
  induction 1 as [|z l Hl IH Hz]; simpl.
  - repeat constructor.
  - destruct (Z.ltb_spec (key z) (key x)) as [Hlt|Hge].
    + constructor; [exact IH|].
      apply Forall_forall. intros y Hy.
      apply list_elem_of_In, insert_by_In in Hy as [->|Hy]; [lia|].
      rewrite Forall_forall in Hz. apply Hz, list_elem_of_In, Hy.
    + constructor; [constructor; assumption|].
      constructor; [exact Hge|].
      eapply Forall_impl; [exact Hz|]. simpl. intros; lia.
Qed.

Lemma sort_by_sorted {A} (key : A -> Z) l :
  StronglySorted (fun a b => key a <= key b) (sort_by key l).
Proof.
  induction l as [|x l IH]; simpl; [constructor | apply insert_by_sorted, IH].
Qed.

Lemma sort_by_In {A} (key : A -> Z) l y : In y (sort_by key l) <-> In y l.
Proof.
  induction l as [|x l IH]; simpl; [reflexivity|].
  rewrite insert_by_In, IH. intuition.
Qed.

Lemma video_options_descend fs : forall seen,
  StronglySorted (fun a b => sort_key a <= sort_key b) fs ->
  StronglySorted Z.gt (map Choice.height (video_options seen fs)).
Proof.
  induction fs as [|f fs IH]; intros seen Hs; simpl; [constructor|].
  apply StronglySorted_inv in Hs as [Hs Hf].
  destruct (emits seen f); [|apply IH, Hs].
  simpl. constructor; [apply IH, Hs|].
  apply Forall_forall. intros h Hh.
  apply list_elem_of_In in Hh.
  pose proof (video_options_heights_fresh _ _ _ Hh) as Hfresh.
  apply in_map_iff in Hh as (c & <- & Hc).
  apply video_options_from in Hc as (g & Hg & -> & _).
  rewrite Forall_forall in Hf. apply list_elem_of_In, Hf in Hg.
  unfold sort_key in Hg. simpl in *.
  assert (VideoFormat.height g <> VideoFormat.height f) by set_solver.
  lia.
Qed.

(** C8.  The options offered for a video are its video options followed by
    its audio options; the video options come in strictly decreasing height
    and there is at most one audio option.  With formats of heights 144,
    240, 360, 1080, 1080 and 720 the video options have the heights 1080,
    720, 360 and 240, the 1080 being the first of the two. *)
Theorem resolve_order (url : string) (info : RawInfo) :
  resolve url info =
    (List.filter is_video (resolve url info) ++
     List.filter is_audio (resolve url info))%list /\
  StronglySorted Z.gt (map Choice.height (List.filter is_video (resolve url info))) /\
  (length (List.filter is_audio (resolve url info)) <= 1)%nat /\
  map Choice.height (List.filter is_video (resolve url six_heights)) =
    [1080; 720; 360; 240] /\
  map Choice.format_id (resolve url six_heights) = ["d"; "f"; "c"; "b"].
Proof.
  unfold resolve.
  split; [|split; [|split; [|split]]].
  - rewrite videos_of_get_best_formats, audios_of_get_best_formats.
    apply get_best_formats_split.
  - rewrite videos_of_get_best_formats. simpl.
    apply video_options_descend, sort_by_sorted.
  - rewrite audios_of_get_best_formats. apply audio_options_length.
  - vm_compute. reflexivity.
  - vm_compute. reflexivity.
Qed.

End Formats.

(** ** The request sent to yt-dlp *)

Section Planner.
Import Parser Downloader Text.

Lemma merge_required_video os output_dir format_choice :
  merge_required (video_ydl_opts os output_dir format_choice) = check_ffmpeg os.
Proof.
  unfold merge_required, video_ydl_opts.
  destruct (check_ffmpeg os) eqn:E.
  - apply bool_decide_eq_true.
    rewrite lookup_insert_ne, lookup_insert_eq by done. eauto.
  - apply bool_decide_eq_false. intros [v Hv].
    destruct (str_truthy (get_ffmpeg_path os));
      repeat (rewrite lookup_insert_ne in Hv by done);
      rewrite lookup_empty in Hv; discriminate.
Qed.

Lemma merge_required_audio os output_dir :
  merge_required (audio_ydl_opts os output_dir) = false.
Proof.
  unfold merge_required, audio_ydl_opts.
  apply bool_decide_eq_false. intros [v Hv].
  destruct (check_ffmpeg os); destruct (str_truthy (get_ffmpeg_path os));
    repeat (rewrite lookup_insert_ne in Hv by done);
    rewrite lookup_empty in Hv; discriminate.
Qed.

Lemma get_best_formats_types video_info c :
  In c (get_best_formats video_info) ->
  Choice.type c = "video" \/ Choice.type c = "audio".
Proof.
  rewrite get_best_formats_split, in_app_iff. intros [Hc|Hc].
  - left. pose proof (video_options_is_video (formats video_info) ∅) as H.
    rewrite Forall_forall in H. apply String.eqb_eq, H, list_elem_of_In, Hc.
  - right. pose proof (audio_options_is_audio (formats video_info)) as H.
    rewrite Forall_forall in H. apply String.eqb_eq, H, list_elem_of_In, Hc.
Qed.

(** C9.  For every option of type "video" or "audio" (the options
    [get_best_formats] offers are such) and every environment, the request
    built for the option carries a merge step exactly when FFmpeg is
    available and the option is a video option. *)
Theorem merge_iff_ffmpeg_and_video
    (os : OS) (output_dir : string) (choice : Choice.t) :
  Choice.type choice = "video" \/ Choice.type choice = "audio" ->
  merge_required (request os output_dir choice) = true <->
  check_ffmpeg os = true /\ Choice.type choice = "video".
Proof.
  intros Ht. unfold request.
  destruct Ht as [Ht|Ht]; rewrite Ht; simpl.
  - rewrite merge_required_video. tauto.
  - rewrite merge_required_audio. split; [discriminate | intros [_ ?]; discriminate].
Qed.

Lemma merge_iff_ffmpeg_and_video_witness :
  merge_required (request posix_with_ffmpeg "/home/u/Downloads"
                    (video_choice (format_of_raw (raw_video "d" 1080)))) = true <->
  check_ffmpeg posix_with_ffmpeg = true /\
  Choice.type (video_choice (format_of_raw (raw_video "d" 1080))) = "video".
Proof.
  apply (merge_iff_ffmpeg_and_video posix_with_ffmpeg "/home/u/Downloads"
           (video_choice (format_of_raw (raw_video "d" 1080)))).
  left. reflexivity.
Defined.

End Planner.

(** ** The worker's run *)

Section Runner.
Import Downloader Text.

Lemma silent_ret {A} (a : A) : silent (mret a).
Proof.
  intros st r st' [= <- <-]. split; [|auto].
  exists []. split; [symmetry; apply app_nil_r | constructor].
Qed.

Lemma silent_raise {A} message : silent (@raise A message).
Proof.
  intros st r st' [= <- <-]. split; [|auto].
  exists []. split; [symmetry; apply app_nil_r | constructor].
Qed.

Lemma silent_bind {A B} (m : M A) (f : A -> M B) :
  silent m -> (forall a, silent (f a)) -> silent (m ≫= f).
Proof.
  intros Hm Hf st r st'. unfold mbind, M_bind.
  destruct (m st) as [[a|e] st1] eqn:E1; intros E2.
  - destruct (Hm _ _ _ E1) as [(evs1 & He1 & Hq1) Hc1].
    destruct (Hf a _ _ _ E2) as [(evs2 & He2 & Hq2) Hc2].
    split; [|auto].
    exists (evs1 ++ evs2)%list. split.
    + rewrite He2, He1, app_assoc. reflexivity.
    + apply Forall_app. auto.
  - injection E2 as <- <-. exact (Hm _ _ _ E1).
Qed.

Lemma silent_emit e : quiet e -> silent (emit e).
Proof.
  intros He st r st' [= <- <-]. split; [|auto].
  exists [e]. split; [reflexivity | repeat constructor; exact He].
Qed.

Lemma silent_cancel : silent cancel.
Proof.
  intros st r st' [= <- <-]. split; [|auto].
  exists []. split; [symmetry; apply app_nil_r | constructor].
Qed.

Lemma silent_read_cancelled : silent read_cancelled.
Proof.
  intros st r st' [= <- <-]. split; [|auto].
  exists []. split; [symmetry; apply app_nil_r | constructor].
Qed.

Lemma silent_progress_hook d : silent (_progress_hook d).
Proof.
  unfold _progress_hook.
  apply silent_bind; [apply silent_read_cancelled|]. intros c.
  destruct c; [apply silent_raise|].
  destruct (String.eqb (status d) "downloading"); [apply silent_emit; reflexivity|].
  destruct (String.eqb (status d) "finished"); [|apply silent_ret].
  apply silent_bind; [apply silent_emit; reflexivity|].
  intros _. apply silent_emit. reflexivity.
Qed.

Lemma silent_engine_steps l : silent (engine_steps l).
Proof.
  induction l as [|[d| |d] l IH]; simpl.
  - apply silent_ret.
  - apply silent_bind; [apply silent_progress_hook | intros _; exact IH].
  - apply silent_bind; [apply silent_cancel | intros _; exact IH].
  - apply silent_bind; [apply silent_progress_hook | intros _].
    apply silent_bind; [apply silent_cancel | intros _; exact IH].
Qed.

Lemma silent_extract_info r : silent (extract_info r).
Proof.
  unfold extract_info.
  apply silent_bind; [apply silent_engine_steps|]. intros _.
  destruct (ending r); [apply silent_ret | apply silent_raise].
Qed.

(** Up to the end of yt-dlp's call the worker has emitted only status and
    progress events. *)
Lemma engine_call_quiet w self r st :
  engine_call w self = (r, st) -> Forall quiet (emitted st).
Proof.
  unfold engine_call. intros H.
  assert (Hs : forall a b run, silent
            (emit (StatusUpdate a) ;; emit (StatusUpdate b) ;; extract_info run)).
  { intros a b run. apply silent_bind; [apply silent_emit; reflexivity|].
    intros _. apply silent_bind; [apply silent_emit; reflexivity|].
    intros _. apply silent_extract_info. }
  destruct (String.eqb (Choice.type (format_choice self)) "audio");
    apply Hs in H as [(evs & He & Hq) _]; simpl in He; rewrite He; exact Hq.
Qed.

Lemma run_when_engine_raises w self message st :
  engine_call w self = (Exc message, st) ->
  run w self init = (Ok tt, conclude w st [Error message]).
Proof.
  unfold run, try_except, engine_call, _download_audio, _download_video, conclude.
  destruct (String.eqb (Choice.type (format_choice self)) "audio");
    unfold mbind, M_bind; cbn [emit init emitted _cancelled app];
    intros ->; destruct (late_cancel w); simpl; [reflexivity| |reflexivity|];
    destruct st as [[] evs]; reflexivity.
Qed.

Lemma run_when_engine_returns w self filename st :
  engine_call w self = (Ok filename, st) ->
  exists filepath,
    run w self init =
      (Ok tt, conclude w st [StatusUpdate "Готово!"; Finished filepath]).
Proof.
  unfold run, try_except, engine_call, _download_audio, _download_video, conclude.
  destruct (String.eqb (Choice.type (format_choice self)) "audio");
    unfold mbind, M_bind; cbn [emit init emitted _cancelled app];
    intros ->; eexists; destruct (late_cancel w); simpl; try reflexivity;
    destruct st as [[] evs]; simpl; try reflexivity;
    rewrite <- app_assoc; reflexivity.
Qed.

Lemma callback_raises_only_when_cancelled d st message st' :
  _progress_hook d st = (Exc message, st') -> st' = st /\ _cancelled st = true.
Proof.
  unfold _progress_hook, mbind, M_bind, read_cancelled.
  destruct (_cancelled st) eqn:Ec; [intros [= _ <-]; auto|].
  destruct (String.eqb (status d) "downloading"); [discriminate|].
  destruct (String.eqb (status d) "finished"); discriminate.
Qed.

Lemma quiet_has_no_terminal evs :
  Forall quiet evs -> List.filter is_terminal evs = [].
Proof. apply filter_none. Qed.

Lemma quiet_is_no_error e : quiet e -> is_error e = false.
Proof. unfold quiet. destruct e; simpl; intros H; congruence. Qed.

(** *** Two whole runs *)

Example undisturbed_run :
  run undisturbed worker_1080 init =
    (Ok tt,
     {| _cancelled := false;
        emitted := [StatusUpdate "Подготовка загрузки...";
                    StatusUpdate "Скачивание видео...";
                    Progress (hook_record quarter);
                    StatusUpdate "Готово!";
                    Finished "/home/u/Downloads/v.mp4"] |}).
Proof. reflexivity. Qed.

Example failed_run :
  emitted (final (world_of [] (Raises "HTTP Error 403")) worker_1080) =
    [StatusUpdate "Подготовка загрузки..."; StatusUpdate "Скачивание видео...";
     Error "HTTP Error 403"].
Proof. reflexivity. Qed.

(** C2.  When the call of yt-dlp ends with an exception while the flag is
    set, the run ends as cancelled: the worker emits no error event and no
    other terminal event. *)
Theorem exception_while_cancelled_is_cancelled
    (w : World) (self : Worker) (message : string) (st : WState) :
  engine_call w self = (Exc message, st) ->
  _cancelled st = true ->
  outcome (final w self) = OCancelled /\
  Forall (fun e => is_error e = false) (emitted (final w self)) /\
  List.filter is_terminal (emitted (final w self)) = [].
Proof.
  intros Hcall Hc.
  pose proof (engine_call_quiet _ _ _ _ Hcall) as Hq.
  unfold final. rewrite (run_when_engine_raises _ _ _ _ Hcall).
  unfold conclude. rewrite Hc, orb_true_r. simpl.
  split; [|split].
  - unfold outcome. simpl. rewrite (quiet_has_no_terminal _ Hq). reflexivity.
  - eapply Forall_impl; [exact Hq | apply quiet_is_no_error].
  - apply quiet_has_no_terminal, Hq.
Qed.

Lemma exception_while_cancelled_is_cancelled_witness :
  outcome (final cancelled_then_failed worker_1080) = OCancelled /\
  Forall (fun e => is_error e = false)
    (emitted (final cancelled_then_failed worker_1080)) /\
  List.filter is_terminal (emitted (final cancelled_then_failed worker_1080)) = [].
Proof.
  apply (exception_while_cancelled_is_cancelled cancelled_then_failed worker_1080
           "network unreachable"
           {| _cancelled := true;
              emitted := [StatusUpdate "Подготовка загрузки...";
                          StatusUpdate "Скачивание видео..."] |}).
  - reflexivity.
  - reflexivity.
Defined.

(** Against C3 as worded, a cancelled run: the worker emits two status
    updates and one progress record, and no terminal event. *)
Lemma cancelled_run_has_no_terminal_event :
  emitted (final cancelled_between_callbacks worker_1080) =
    [StatusUpdate "Подготовка загрузки..."; StatusUpdate "Скачивание видео...";
     Progress (hook_record quarter)] /\
  length (List.filter is_terminal
            (emitted (final cancelled_between_callbacks worker_1080))) <> 1%nat.
Proof. split; [reflexivity | vm_compute; discriminate]. Qed.

(** C3 (amended).  The events of a run are status and progress events,
    followed by at most one terminal event, "finished" or "error", after
    which nothing is emitted; there is exactly one when the flag is clear
    at the worker's last look at it and none when it is set (a cancelled
    run ends without a terminal event).  [run] itself always returns, and
    [cancel()] emits nothing, in whatever state the worker is. *)
Theorem run_ends_with_at_most_one_terminal_event (w : World) (self : Worker) :
  (exists evs,
     Forall quiet evs /\
     (emitted (final w self) = evs \/
      exists e, is_terminal e = true /\ emitted (final w self) = (evs ++ [e])%list)) /\
  (_cancelled (final w self) = false ->
     length (List.filter is_terminal (emitted (final w self))) = 1%nat) /\
  (_cancelled (final w self) = true ->
     List.filter is_terminal (emitted (final w self)) = []) /\
  fst (run w self init) = Ok tt /\
  (forall st, emitted (snd (cancel st)) = emitted st).
Proof.
  assert (Hrun : exists st tail,
            Forall quiet (emitted st) /\
            run w self init = (Ok tt, conclude w st tail) /\
            exists evs e, Forall quiet evs /\ is_terminal e = true /\
                          tail = (evs ++ [e])%list).
  { destruct (engine_call w self) as [[filename|message] st] eqn:Hcall.
    - destruct (run_when_engine_returns _ _ _ _ Hcall) as [filepath Hr].
      exists st, [StatusUpdate "Готово!"; Finished filepath].
      split; [exact (engine_call_quiet _ _ _ _ Hcall)|]. split; [exact Hr|].
      exists [StatusUpdate "Готово!"], (Finished filepath).
      repeat split. repeat constructor.
    - exists st, [Error message].
      split; [exact (engine_call_quiet _ _ _ _ Hcall)|].
      split; [exact (run_when_engine_raises _ _ _ _ Hcall)|].
      exists [], (Error message). repeat split. constructor. }
  destruct Hrun as (st & tail & Hq & Hr & evs & e & Hqe & Hte & ->).
  unfold final. rewrite Hr. unfold conclude. simpl.
  destruct (late_cancel w || _cancelled st); simpl.
  - split; [|split; [|split; [|split]]]; try reflexivity.
    + exists (emitted st). auto.
    + discriminate.
    + intros _. apply quiet_has_no_terminal, Hq.
  - assert (Hall : Forall quiet (emitted st ++ evs)) by (apply Forall_app; auto).
    split; [|split; [|split; [|split]]]; try reflexivity.
    + exists (emitted st ++ evs)%list. split; [exact Hall|].
      right. exists e. rewrite app_assoc. auto.
    + intros _. rewrite app_assoc, List.filter_app.
      rewrite (quiet_has_no_terminal _ Hall). simpl. rewrite Hte. reflexivity.
    + discriminate.
Qed.

End Runner.

(** ** The window's worker list *)

Section Registry.
Import MainWindow.

Lemma start_download_count self worker :
  activeCount (_start_download self worker) = activeCount self + 1.
Proof.
  unfold activeCount, _start_download. simpl. rewrite length_app. simpl. lia.
Qed.

Lemma start_download_keeps_max self worker :
  max_concurrent (_start_download self worker) = max_concurrent self.
Proof. reflexivity. Qed.

(** Every worker handed to [_start_download] is in the list at once, whatever
    [max_concurrent] is: nothing waits. *)
Lemma start_downloads_all_active workers : forall self,
  active_workers (fold_left _start_download workers self) =
    (active_workers self ++ workers)%list.
Proof.
  induction workers as [|x workers IH]; intros self; simpl.
  - symmetry. apply app_nil_r.
  - rewrite IH. simpl. rewrite <- app_assoc. reflexivity.
Qed.

(** C1 is not met by the code.  With the default bound of 3, four downloads
    started in a row are all in the worker list: the count is 4, above the
    bound, and no download waits for a free slot. *)
Theorem active_count_exceeds_max_concurrent :
  max_concurrent
    (fold_left _start_download [1; 2; 3; 4]%nat (init Config.DEFAULT_MAX_CONCURRENT)) = 3 /\
  active_workers
    (fold_left _start_download [1; 2; 3; 4]%nat (init Config.DEFAULT_MAX_CONCURRENT)) =
    [1; 2; 3; 4]%nat /\
  activeCount
    (fold_left _start_download [1; 2; 3; 4]%nat (init Config.DEFAULT_MAX_CONCURRENT)) = 4 /\
  (forall (bound : Z) (workers : list nat),
     activeCount (fold_left _start_download workers (init bound)) =
       Z.of_nat (length workers)).
Proof.
  split; [reflexivity|]. split; [reflexivity|]. split; [reflexivity|].
  intros bound workers. unfold activeCount.
  rewrite start_downloads_all_active. reflexivity.
Qed.

End Registry.

(** * Further properties *)

(** ** The parsed format list *)

Section ParsedFormats.
Import Parser Text.

Lemma insert_by_perm {A} (key : A -> Z) x l : insert_by key x l ≡ₚ x :: l.
Proof.
  induction l as [|y l IH]; simpl; [reflexivity|].
  destruct (key y <? key x); [|reflexivity].
  rewrite IH. apply Permutation_swap.
Qed.

Lemma sort_by_perm {A} (key : A -> Z) l : sort_by key l ≡ₚ l.
Proof.
  induction l as [|x l IH]; simpl; [reflexivity|].
  rewrite insert_by_perm, IH. reflexivity.
Qed.

Lemma insert_by_same_key {A} (key : A -> Z) k x l :
  List.filter (fun y => key y =? k) (insert_by key x l) =
    if key x =? k then x :: List.filter (fun y => key y =? k) l
    else List.filter (fun y => key y =? k) l.
Proof.
  induction l as [|y l IH]; simpl; [reflexivity|].
  destruct (Z.ltb_spec (key y) (key x)) as [Hlt|Hge]; simpl; [|reflexivity].
  rewrite IH.
  destruct (Z.eqb_spec (key x) k) as [Hx|Hx]; [|reflexivity].
  destruct (Z.eqb_spec (key y) k); [lia | reflexivity].
Qed.

Lemma sort_by_same_key {A} (key : A -> Z) k l :
  List.filter (fun y => key y =? k) (sort_by key l) =
    List.filter (fun y => key y =? k) l.
Proof.
  induction l as [|x l IH]; simpl; [reflexivity|].
  rewrite insert_by_same_key, IH. reflexivity.
Qed.

Lemma of_height_sort_key h f : of_height h f = (sort_key f =? - h).
Proof.
  unfold of_height, sort_key.
  destruct (Z.eqb_spec (VideoFormat.height f) h), (Z.eqb_spec (- VideoFormat.height f) (- h));
    (reflexivity || lia).
Qed.

(** X1.  The sorted format list of [parse_video] holds exactly the formats
    that were kept, each as often as before; it is in decreasing height; and
    formats of equal height stay in the order yt-dlp gave them. *)
Theorem parse_formats_sorted_stable (raw : list RawFormat) :
  parse_formats raw ≡ₚ map format_of_raw (List.filter keep_raw raw) /\
  StronglySorted (fun a b => VideoFormat.height a >= VideoFormat.height b)
    (parse_formats raw) /\
  (forall h, List.filter (of_height h) (parse_formats raw) =
             List.filter (of_height h) (map format_of_raw (List.filter keep_raw raw))).
Proof.
  unfold parse_formats. split; [apply sort_by_perm|]. split.
  - pose proof (sort_by_sorted sort_key
                  (map format_of_raw (List.filter keep_raw raw))) as H.
    induction H as [|x l Hl IH Hx]; constructor; [exact IH|].
    eapply Forall_impl; [exact Hx|]. unfold sort_key. simpl. intros; lia.
  - intros h.
    rewrite !(filter_ext (of_height h) (fun y => sort_key y =? - h))
      by (intros; apply of_height_sort_key).
    apply sort_by_same_key.
Qed.

Lemma in_all_bytes c : In c (map ascii_of_nat (seq 0 256)).
Proof.
  rewrite <- (ascii_nat_embedding c). apply in_map, in_seq.
  pose proof (nat_ascii_bounded c). lia.
Qed.

Lemma same_letter_lower w c :
  In w (list_ascii_of_string "storyboard") ->
  same_letter w c = Ascii.eqb (lower_ascii c) w.
Proof.
  intros Hw.
  assert (H : forallb (fun w => forallb (fun c =>
                Bool.eqb (same_letter w c) (Ascii.eqb (lower_ascii c) w))
                (map ascii_of_nat (seq 0 256)))
              (list_ascii_of_string "storyboard") = true)
    by (vm_compute; reflexivity).
  rewrite forallb_forall in H. specialize (H w Hw).
  rewrite forallb_forall in H. specialize (H c (in_all_bytes c)).
  apply Bool.eqb_prop, H.
Qed.

Lemma spelled_at_head_lower word : forall s,
  (forall w, In w (list_ascii_of_string word) ->
             In w (list_ascii_of_string "storyboard")) ->
  spelled_at_head word s = String.prefix word (lower s).
Proof.
  induction word as [|w word IH]; intros s Hw; [destruct s; reflexivity|].
  destruct s as [|c s]; [reflexivity|].
  cbn [spelled_at_head lower String.prefix].
  rewrite same_letter_lower by (apply Hw; left; reflexivity).
  rewrite IH by (intros x Hx; apply Hw; right; exact Hx).
  destruct (ascii_dec w (lower_ascii c)) as [<-|Hne].
  - rewrite Ascii.eqb_refl. reflexivity.
  - destruct (Ascii.eqb_spec (lower_ascii c) w); [congruence | reflexivity].
Qed.

Lemma mentions_storyboard s :
  mentions "storyboard" s = contains "storyboard" (lower s).
Proof.
  unfold mentions. induction s as [|c s IH].
  - reflexivity.
  - cbn [tails existsb]. rewrite IH.
    rewrite spelled_at_head_lower by (intros w Hw; exact Hw).
    reflexivity.
Qed.

Lemma keep_raw_left_out f : keep_raw f = negb (left_out f).
Proof.
  unfold keep_raw, left_out. rewrite negb_orb. f_equal.
  - destruct (raw_format_note f) as [note|]; cbn [get_str];
      [rewrite mentions_storyboard; reflexivity | reflexivity].
  - f_equal. destruct (raw_ext f) as [ext|]; cbn [get_str].
    + destruct (String.eqb_spec ext "mhtml") as [->|Hne].
      * rewrite bool_decide_eq_true_2; reflexivity.
      * rewrite bool_decide_eq_false_2; [reflexivity | congruence].
    + rewrite bool_decide_eq_false_2; [reflexivity | discriminate].
Qed.

(** X2.  The video's format list holds the raw entries of yt-dlp, each as
    often as it came, except those whose note mentions "storyboard" (in
    capitals or small letters, anywhere in the note) and those of extension
    "mhtml": these are left out and nothing else is.  So no format of the
    list has the extension "mhtml" or a note that mentions "storyboard"; a
    note "Storyboard" next to nothing else leaves the list empty. *)
Theorem parse_video_drops_storyboards (url : string) (info : RawInfo) :
  formats (parse_video url info) ≡ₚ
    map format_of_raw
      (List.filter (fun f => negb (left_out f)) (raw_formats info)) /\
  (forall f, In f (formats (parse_video url info)) ->
     VideoFormat.ext f <> "mhtml" /\
     mentions "storyboard" (VideoFormat.format_note f) = false) /\
  (forall f, In f (raw_formats info) -> left_out f = false ->
     In (format_of_raw f) (formats (parse_video url info))) /\
  parse_formats
    [{| raw_format_id := Some "sb0"; raw_ext := Some "webp";
        raw_resolution := None; raw_filesize := None;
        raw_filesize_approx := None; raw_vcodec := None; raw_acodec := None;
        raw_fps := None; raw_tbr := None;
        raw_format_note := Some "Storyboard"; raw_height := Some 90;
        raw_width := Some 160 |}] = [].
Proof.
  cbn [formats parse_video]. unfold parse_formats.
  rewrite (filter_ext keep_raw (fun f => negb (left_out f)))
    by (intros; apply keep_raw_left_out).
  split; [apply sort_by_perm|]. split; [|split].
  - intros f Hf.
    apply sort_by_In, in_map_iff in Hf as (r & <- & Hr).
    apply filter_In in Hr as [_ Hk]. apply negb_true_iff in Hk.
    unfold left_out in Hk. apply orb_false_elim in Hk as [Hs Hm].
    apply bool_decide_eq_false in Hm.
    cbn [VideoFormat.ext VideoFormat.format_note format_of_raw VideoFormat.__init__].
    split.
    + destruct (raw_ext r) as [e|]; cbn [get_str]; [congruence | discriminate].
    + destruct (raw_format_note r) as [n|]; cbn [get_str]; [exact Hs | reflexivity].
  - intros f Hf Hk. apply sort_by_In, in_map, filter_In.
    split; [exact Hf | rewrite Hk; reflexivity].
  - vm_compute. reflexivity.
Qed.

(** *** Which format stands for a height *)

Lemma emits_usable seen f :
  emits seen f = usable_video f && negb (bool_decide (VideoFormat.height f ∈ seen)).
Proof. reflexivity. Qed.

Lemma video_options_first fs : forall seen c,
  In c (video_options seen fs) ->
  exists f, first_video_of_height (Choice.height c) fs = Some f /\
            c = video_choice f.
Proof.
  induction fs as [|g fs IH]; intros seen c Hc; simpl in Hc; [contradiction|].
  unfold first_video_of_height in *. simpl.
  destruct (emits seen g) eqn:E.
  - destruct Hc as [<-|Hc].
    + apply emits_true in E as (Hv & _ & _). exists g.
      unfold of_height. simpl. rewrite Hv, Z.eqb_refl. auto.
    + pose proof (video_options_from _ _ _ Hc) as (f & _ & -> & _ & _ & Hf).
      apply IH in Hc as (f' & Hfind & Hc'). exists f'. split; [|exact Hc'].
      simpl in *. unfold of_height at 1.
      destruct (Z.eqb_spec (VideoFormat.height g) (VideoFormat.height f));
        [exfalso; apply Hf, elem_of_union_l, elem_of_singleton; congruence
        | rewrite andb_false_r; exact Hfind].
  - pose proof (video_options_from _ _ _ Hc) as (f & _ & -> & _ & Hh & Hf).
    apply IH in Hc as (f' & Hfind & Hc'). exists f'. split; [|exact Hc'].
    simpl in *. unfold of_height at 1.
    destruct (VideoFormat.has_video g) eqn:Hv; [|exact Hfind].
    destruct (Z.eqb_spec (VideoFormat.height g) (VideoFormat.height f)) as [Hg|];
      [|exact Hfind].
    exfalso. unfold emits in E. rewrite Hv, Hg in E.
    destruct (Z.ltb_spec (VideoFormat.height f) 240); [lia|].
    rewrite bool_decide_eq_false_2 in E by exact Hf. discriminate.
Qed.

Lemma video_options_cover fs : forall seen f,
  In f fs -> usable_video f = true -> VideoFormat.height f ∉ seen ->
  exists c, In c (video_options seen fs) /\ Choice.height c = VideoFormat.height f.
Proof.
  induction fs as [|g fs IH]; intros seen f Hin Hu Hs; [contradiction|].
  simpl. destruct (emits seen g) eqn:E.
  - destruct (Z.eq_dec (VideoFormat.height g) (VideoFormat.height f)) as [Hg|Hg].
    + exists (video_choice g). simpl. auto.
    + destruct Hin as [->|Hin]; [contradiction|].
      assert (Hs' : VideoFormat.height f ∉ ({[VideoFormat.height g]} ∪ seen : gset Z)).
      { intros [Hx|Hx]%elem_of_union; [|contradiction].
        apply elem_of_singleton in Hx. congruence. }
      destruct (IH _ f Hin Hu Hs') as (c & Hc & Hh).
      exists c. simpl. auto.
  - destruct Hin as [->|Hin].
    + rewrite emits_usable, Hu, bool_decide_eq_false_2 in E by exact Hs.
      discriminate.
    + apply IH; assumption.
Qed.

(** X3.  The video option of a height is built from the first format of the
    list that has video at that height: later formats of the same height
    never replace it. *)
Theorem video_option_is_first_of_its_height (video_info : VideoInfo) (c : Choice.t) :
  In c (get_best_formats video_info) ->
  is_video c = true ->
  exists f, first_video_of_height (Choice.height c) (formats video_info) = Some f /\
            c = video_choice f.
Proof.
  intros Hc Hv.
  assert (Hin : In c (List.filter is_video (get_best_formats video_info)))
    by (apply filter_In; auto).
  rewrite videos_of_get_best_formats in Hin.
  eapply video_options_first, Hin.
Qed.

Lemma video_option_is_first_of_its_height_witness :
  exists f,
    first_video_of_height 1080 (formats (parse_video "u" six_heights)) = Some f /\
    video_choice (format_of_raw (raw_video "d" 1080)) = video_choice f.
Proof.
  apply (video_option_is_first_of_its_height (parse_video "u" six_heights)
           (video_choice (format_of_raw (raw_video "d" 1080)))).
  - vm_compute. left. reflexivity.
  - reflexivity.
Defined.

(** X4.  No height is lost: every format with video that is at least 240
    high has a video option of its height in the result. *)
Theorem every_usable_height_is_offered (video_info : VideoInfo) (f : VideoFormat.t) :
  In f (formats video_info) ->
  VideoFormat.has_video f = true ->
  240 <= VideoFormat.height f ->
  exists c, In c (get_best_formats video_info) /\ is_video c = true /\
            Choice.height c = VideoFormat.height f.
Proof.
  intros Hin Hv Hh.
  destruct (video_options_cover (formats video_info) ∅ f Hin) as (c & Hc & Hch).
  - unfold usable_video. rewrite Hv. simpl.
    destruct (Z.ltb_spec (VideoFormat.height f) 240); [lia | reflexivity].
  - set_solver.
  - rewrite <- videos_of_get_best_formats in Hc.
    apply filter_In in Hc as [Hc Hv']. exists c. auto.
Qed.

Lemma every_usable_height_is_offered_witness :
  exists c, In c (get_best_formats (parse_video "u" six_heights)) /\
            is_video c = true /\
            Choice.height c = VideoFormat.height (format_of_raw (raw_video "f" 720)).
Proof.
  apply (every_usable_height_is_offered (parse_video "u" six_heights)
           (format_of_raw (raw_video "f" 720))).
  - vm_compute. right. right. left. reflexivity.
  - reflexivity.
  - vm_compute. discriminate.
Defined.

(** *** The audio option *)



(** *** When nothing is offered *)




(** *** Formats without codecs *)

Lemma video_options_drop f after : forall before seen,
  usable_video f = false ->
  video_options seen (before ++ f :: after) = video_options seen (before ++ after).
Proof.
  intros before seen Hf. revert seen.
  induction before as [|g before IH]; intros seen; simpl.
  - rewrite emits_usable, Hf. reflexivity.
  - destruct (emits seen g); rewrite IH; reflexivity.
Qed.

Lemma filter_drop {A} (p : A -> bool) before f after :
  p f = false ->
  List.filter p (before ++ f :: after) = List.filter p (before ++ after).
Proof.
  intros Hf. rewrite !List.filter_app. simpl. rewrite Hf. reflexivity.
Qed.

(** X7.  A raw format whose [vcodec] and [acodec] are both missing (or
    [None], or empty) is read as having neither video nor audio, and it
    changes nothing in the options offered: the result is that of the list
    without it. *)
Theorem codecless_format_is_ignored
    (r : RawFormat) (video_info : VideoInfo) (before after : list VideoFormat.t) :
  codec_or_none (raw_vcodec r) = "none" ->
  codec_or_none (raw_acodec r) = "none" ->
  VideoFormat.has_video (format_of_raw r) = false /\
  VideoFormat.has_audio (format_of_raw r) = false /\
  get_best_formats (with_formats video_info (before ++ format_of_raw r :: after)) =
    get_best_formats (with_formats video_info (before ++ after)).
Proof.
  intros Hv Ha.
  assert (Hnv : VideoFormat.has_video (format_of_raw r) = false)
    by (unfold VideoFormat.has_video; simpl; rewrite Hv; reflexivity).
  assert (Hna : VideoFormat.has_audio (format_of_raw r) = false)
    by (unfold VideoFormat.has_audio; simpl; rewrite Ha; reflexivity).
  split; [exact Hnv|]. split; [exact Hna|].
  rewrite !get_best_formats_split. simpl. f_equal.
  - apply video_options_drop. unfold usable_video. rewrite Hnv. reflexivity.
  - unfold audio_options. rewrite filter_drop; [reflexivity|].
    unfold is_audio_only. rewrite Hna. apply andb_false_r.
Qed.

Lemma codecless_format_is_ignored_witness :
  VideoFormat.has_video (format_of_raw codecless) = false /\
  VideoFormat.has_audio (format_of_raw codecless) = false /\
  get_best_formats (with_formats (parse_video "u" six_heights)
                      ([] ++ format_of_raw codecless :: [])) =
    get_best_formats (with_formats (parse_video "u" six_heights) ([] ++ [])).
Proof.
  apply (codecless_format_is_ignored codecless (parse_video "u" six_heights) [] []).
  - reflexivity.
  - reflexivity.
Defined.

End ParsedFormats.

(** ** How a run ends *)

Section RunEnds.
Import Downloader Text.

Lemma outcome_of_terminal st evs e :
  Forall quiet (emitted st) -> Forall quiet evs -> is_terminal e = true ->
  outcome {| _cancelled := false; emitted := (emitted st ++ evs ++ [e])%list |} =
    match e with
    | Finished p => OFinished p
    | Error m => OFailed m
    | _ => ONone
    end.
Proof.
  intros Hq He Ht. unfold outcome. simpl.
  rewrite !List.filter_app, (quiet_has_no_terminal _ Hq), (quiet_has_no_terminal _ He).
  simpl. rewrite Ht. destruct e; simpl in *; (reflexivity || discriminate).
Qed.

Lemma run_video_returns w self filename st :
  String.eqb (Choice.type (format_choice self)) "audio" = false ->
  engine_call w self = (Ok filename, st) ->
  run w self init =
    (Ok tt,
     conclude w st
       [StatusUpdate "Готово!";
        Finished (if negb (path_exists (os w) filename)
                  then first_existing (os w) (path_splitext0 (os w) filename)
                         [".mp4"; ".mkv"; ".webm"] filename
                  else filename)]).
Proof.
  unfold run, try_except, engine_call, _download_video, conclude. intros ->.
  unfold mbind, M_bind; cbn [emit init emitted _cancelled app].
  intros ->. destruct (late_cancel w); simpl; [reflexivity|].
  destruct st as [[] evs]; simpl; [reflexivity|].
  rewrite <- app_assoc. reflexivity.
Qed.

Lemma run_audio_returns w self filename st :
  String.eqb (Choice.type (format_choice self)) "audio" = true ->
  engine_call w self = (Ok filename, st) ->
  run w self init =
    (Ok tt,
     conclude w st
       [StatusUpdate "Готово!";
        Finished (if check_ffmpeg (os w) &&
                     path_exists (os w) (path_splitext0 (os w) filename ++ ".mp3")
                  then path_splitext0 (os w) filename ++ ".mp3"
                  else filename)]).
Proof.
  unfold run, try_except, engine_call, _download_audio, conclude. intros ->.
  unfold mbind, M_bind; cbn [emit init emitted _cancelled app].
  intros ->. destruct (late_cancel w); simpl; [reflexivity|].
  destruct st as [[] evs]; simpl; [reflexivity|].
  rewrite <- app_assoc. reflexivity.
Qed.

Lemma first_existing_spec o base filepath exts :
  (first_existing o base exts filepath = filepath /\
   forall ext, In ext exts -> path_exists o (base ++ ext) = false) \/
  (exists before ext after,
     exts = (before ++ ext :: after)%list /\
     first_existing o base exts filepath = base ++ ext /\
     path_exists o (base ++ ext) = true /\
     forall e, In e before -> path_exists o (base ++ e) = false).
Proof.
  induction exts as [|x exts IH]; simpl.
  - left. split; [reflexivity | contradiction].
  - destruct (path_exists o (base ++ x)) eqn:E.
    + right. exists [], x, exts. repeat split; auto. simpl. contradiction.
    + destruct IH as [[Heq Hall]|(before & ext & after & -> & Heq & Hex & Hb)].
      * left. split; [exact Heq|]. intros ext [<-|Hin]; auto.
      * right. exists (x :: before), ext, after. repeat split; auto.
        intros e [<-|Hin]; auto.
Qed.

(** X8.  Once the flag is set when the call of yt-dlp ends, or the window
    sets it before the worker looks, the run adds nothing to what was
    emitted during the call, whether yt-dlp raised or returned: a download
    that completes after being cancelled is not announced as finished. *)
Theorem nothing_is_announced_once_cancelled
    (w : World) (self : Worker) (r : Result string) (st : WState) :
  engine_call w self = (r, st) ->
  _cancelled st = true \/ late_cancel w = true ->
  emitted (final w self) = emitted st /\
  _cancelled (final w self) = true /\
  outcome (final w self) = OCancelled.
Proof.
  intros Hcall Hc.
  assert (Hor : late_cancel w || _cancelled st = true)
    by (destruct Hc as [-> | ->]; [apply orb_true_r | reflexivity]).
  pose proof (engine_call_quiet _ _ _ _ Hcall) as Hq.
  assert (Hfin : final w self = {| _cancelled := true; emitted := emitted st |}).
  { unfold final. destruct r as [filename|message].
    - destruct (run_when_engine_returns _ _ _ _ Hcall) as [p ->].
      unfold conclude. rewrite Hor. reflexivity.
    - rewrite (run_when_engine_raises _ _ _ _ Hcall).
      unfold conclude. rewrite Hor. reflexivity. }
  rewrite Hfin. simpl. repeat split.
  unfold outcome. simpl. rewrite (quiet_has_no_terminal _ Hq). reflexivity.
Qed.

Lemma nothing_is_announced_once_cancelled_witness :
  emitted (final cancelled_after_last_callback worker_1080) =
    [StatusUpdate "Подготовка загрузки..."; StatusUpdate "Скачивание видео...";
     Progress (hook_record quarter)] /\
  _cancelled (final cancelled_after_last_callback worker_1080) = true /\
  outcome (final cancelled_after_last_callback worker_1080) = OCancelled.
Proof.
  apply (nothing_is_announced_once_cancelled cancelled_after_last_callback worker_1080
           (Ok "/home/u/Downloads/v.mp4")
           {| _cancelled := true;
              emitted := [StatusUpdate "Подготовка загрузки...";
                          StatusUpdate "Скачивание видео...";
                          Progress (hook_record quarter)] |}).
  - reflexivity.
  - left. reflexivity.
Defined.

(** X9.  When yt-dlp raises and nobody has cancelled, the run ends with one
    error event that carries the exception's text unchanged, after the
    events of the call; no "finished" is emitted. *)
Theorem failure_is_reported_verbatim
    (w : World) (self : Worker) (message : string) (st : WState) :
  engine_call w self = (Exc message, st) ->
  _cancelled st = false ->
  late_cancel w = false ->
  emitted (final w self) = (emitted st ++ [Error message])%list /\
  outcome (final w self) = OFailed message.
Proof.
  intros Hcall Hc Hl.
  pose proof (engine_call_quiet _ _ _ _ Hcall) as Hq.
  unfold final. rewrite (run_when_engine_raises _ _ _ _ Hcall).
  unfold conclude. rewrite Hc, Hl. simpl. split; [reflexivity|].
  apply (outcome_of_terminal st [] (Error message)); auto.
Qed.

Lemma failure_is_reported_verbatim_witness :
  emitted (final (world_of [] (Raises "HTTP Error 403")) worker_1080) =
    ([StatusUpdate "Подготовка загрузки..."; StatusUpdate "Скачивание видео..."]
       ++ [Error "HTTP Error 403"])%list /\
  outcome (final (world_of [] (Raises "HTTP Error 403")) worker_1080) =
    OFailed "HTTP Error 403".
Proof.
  apply (failure_is_reported_verbatim (world_of [] (Raises "HTTP Error 403"))
           worker_1080 "HTTP Error 403"
           {| _cancelled := false;
              emitted := [StatusUpdate "Подготовка загрузки...";
                          StatusUpdate "Скачивание видео..."] |}).
  - reflexivity.
  - reflexivity.
  - reflexivity.
Defined.

(** X10.  When a video download returns and nobody has cancelled, the run
    ends with the status "Готово!" and one "finished" event.  Its path is the
    file name yt-dlp predicted if that file exists; otherwise it is the
    first of base.mp4, base.mkv, base.webm that exists, and the predicted
    name again if none does. *)
Theorem finished_video_path
    (w : World) (self : Worker) (filename : string) (st : WState) :
  String.eqb (Choice.type (format_choice self)) "audio" = false ->
  engine_call w self = (Ok filename, st) ->
  _cancelled st = false ->
  late_cancel w = false ->
  exists filepath,
    emitted (final w self) =
      (emitted st ++ [StatusUpdate "Готово!"; Finished filepath])%list /\
    outcome (final w self) = OFinished filepath /\
    (path_exists (os w) filename = true -> filepath = filename) /\
    (path_exists (os w) filename = false ->
       (filepath = filename /\
        forall ext, In ext [".mp4"; ".mkv"; ".webm"] ->
          path_exists (os w) (path_splitext0 (os w) filename ++ ext) = false) \/
       (exists before ext after,
          [".mp4"; ".mkv"; ".webm"] = (before ++ ext :: after)%list /\
          filepath = path_splitext0 (os w) filename ++ ext /\
          path_exists (os w) filepath = true /\
          forall e, In e before ->
            path_exists (os w) (path_splitext0 (os w) filename ++ e) = false)).
Proof.
  intros Hty Hcall Hc Hl.
  pose proof (engine_call_quiet _ _ _ _ Hcall) as Hq.
  eexists. unfold final. rewrite (run_video_returns _ _ _ _ Hty Hcall).
  unfold conclude. rewrite Hc, Hl. cbn [orb emitted snd].
  split; [reflexivity|]. split.
  - apply (outcome_of_terminal st [StatusUpdate "Готово!"] (Finished _));
      [exact Hq | repeat constructor | reflexivity].
  - split; intros Hex; rewrite Hex; cbn [negb]; [reflexivity|].
    destruct (first_existing_spec (os w) (path_splitext0 (os w) filename) filename
                [".mp4"; ".mkv"; ".webm"])
      as [[Heq Hall]|(before & ext & after & Hexts & Heq & Hp & Hb)].
    + left. auto.
    + right. exists before, ext, after. rewrite Heq. repeat split; auto.
Qed.

Lemma finished_video_path_witness :
  exists filepath,
    emitted (final undisturbed worker_1080) =
      ([StatusUpdate "Подготовка загрузки..."; StatusUpdate "Скачивание видео...";
        Progress (hook_record quarter)]
       ++ [StatusUpdate "Готово!"; Finished filepath])%list /\
    outcome (final undisturbed worker_1080) = OFinished filepath /\
    (path_exists (os undisturbed) "/home/u/Downloads/v.mp4" = true ->
       filepath = "/home/u/Downloads/v.mp4") /\
    (path_exists (os undisturbed) "/home/u/Downloads/v.mp4" = false ->
       (filepath = "/home/u/Downloads/v.mp4" /\
        forall ext, In ext [".mp4"; ".mkv"; ".webm"] ->
          path_exists (os undisturbed)
            (path_splitext0 (os undisturbed) "/home/u/Downloads/v.mp4" ++ ext) = false) \/
       (exists before ext after,
          [".mp4"; ".mkv"; ".webm"] = (before ++ ext :: after)%list /\
          filepath = path_splitext0 (os undisturbed) "/home/u/Downloads/v.mp4" ++ ext /\
          path_exists (os undisturbed) filepath = true /\
          forall e, In e before ->
            path_exists (os undisturbed)
              (path_splitext0 (os undisturbed) "/home/u/Downloads/v.mp4" ++ e) = false)).
Proof.
  apply (finished_video_path undisturbed worker_1080 "/home/u/Downloads/v.mp4"
           {| _cancelled := false;
              emitted := [StatusUpdate "Подготовка загрузки...";
                          StatusUpdate "Скачивание видео...";
                          Progress (hook_record quarter)] |}).
  - reflexivity.
  - reflexivity.
  - reflexivity.
  - reflexivity.
Defined.

(** X11.  When an audio download returns and nobody has cancelled, the
    "finished" event carries base.mp3 if FFmpeg is available and that file
    exists, and the file name yt-dlp predicted in every other case: without
    FFmpeg the name is never changed, even if an mp3 of that name exists. *)
Theorem finished_audio_path
    (w : World) (self : Worker) (filename : string) (st : WState) :
  String.eqb (Choice.type (format_choice self)) "audio" = true ->
  engine_call w self = (Ok filename, st) ->
  _cancelled st = false ->
  late_cancel w = false ->
  exists filepath,
    emitted (final w self) =
      (emitted st ++ [StatusUpdate "Готово!"; Finished filepath])%list /\
    outcome (final w self) = OFinished filepath /\
    (check_ffmpeg (os w) = true ->
     path_exists (os w) (path_splitext0 (os w) filename ++ ".mp3") = true ->
     filepath = path_splitext0 (os w) filename ++ ".mp3") /\
    (check_ffmpeg (os w) = false -> filepath = filename) /\
    (path_exists (os w) (path_splitext0 (os w) filename ++ ".mp3") = false ->
     filepath = filename).
Proof.
  intros Hty Hcall Hc Hl.
  pose proof (engine_call_quiet _ _ _ _ Hcall) as Hq.
  eexists. unfold final. rewrite (run_audio_returns _ _ _ _ Hty Hcall).
  unfold conclude. rewrite Hc, Hl. cbn [orb emitted snd].
  split; [reflexivity|]. split.
  - apply (outcome_of_terminal st [StatusUpdate "Готово!"] (Finished _));
      [exact Hq | repeat constructor | reflexivity].
  - split; [|split].
    + intros -> ->. reflexivity.
    + intros ->. reflexivity.
    + intros ->. rewrite andb_false_r. reflexivity.
Qed.

Lemma finished_audio_path_witness :
  exists filepath,
    emitted (final converted_to_mp3 worker_audio) =
      ([StatusUpdate "Подготовка загрузки аудио..."; StatusUpdate "Скачивание аудио..."]
       ++ [StatusUpdate "Готово!"; Finished filepath])%list /\
    outcome (final converted_to_mp3 worker_audio) = OFinished filepath /\
    (check_ffmpeg (os converted_to_mp3) = true ->
     path_exists (os converted_to_mp3)
       (path_splitext0 (os converted_to_mp3) "/home/u/Downloads/a.webm" ++ ".mp3") = true ->
     filepath = path_splitext0 (os converted_to_mp3) "/home/u/Downloads/a.webm" ++ ".mp3") /\
    (check_ffmpeg (os converted_to_mp3) = false -> filepath = "/home/u/Downloads/a.webm") /\
    (path_exists (os converted_to_mp3)
       (path_splitext0 (os converted_to_mp3) "/home/u/Downloads/a.webm" ++ ".mp3") = false ->
     filepath = "/home/u/Downloads/a.webm").
Proof.
  apply (finished_audio_path converted_to_mp3 worker_audio "/home/u/Downloads/a.webm"
           {| _cancelled := false;
              emitted := [StatusUpdate "Подготовка загрузки аудио...";
                          StatusUpdate "Скачивание аудио..."] |}).
  - reflexivity.
  - reflexivity.
  - reflexivity.
  - reflexivity.
Defined.

Example converted_to_mp3_run :
  outcome (final converted_to_mp3 worker_audio) = OFinished "/home/u/Downloads/a.mp3".
Proof. reflexivity. Qed.

(** *** Callbacks after a cancel *)

Lemma progress_hook_cancelled d st :
  _cancelled st = true -> _progress_hook d st = (Exc "Загрузка отменена", st).
Proof.
  intros Hc. unfold _progress_hook.
  change ((read_cancelled ≫= ?f) st) with (f (_cancelled st) st).
  rewrite Hc. reflexivity.
Qed.

Lemma engine_steps_cancelled l : forall st,
  _cancelled st = true ->
  emitted (snd (engine_steps l st)) = emitted st /\
  _cancelled (snd (engine_steps l st)) = true /\
  fst (engine_steps l st) =
    if existsb is_callback l then Exc "Загрузка отменена" else Ok tt.
Proof.
  induction l as [|[d| |d] l IH]; intros st Hc;
    cbn [engine_steps existsb is_callback orb].
  - auto.
  - unfold mbind, M_bind. rewrite (progress_hook_cancelled d st Hc). auto.
  - unfold mbind, M_bind. cbn [cancel].
    apply (IH {| _cancelled := true; emitted := emitted st |}). reflexivity.
  - unfold mbind, M_bind. rewrite (progress_hook_cancelled d st Hc). auto.
Qed.

Lemma engine_steps_app before after st :
  engine_steps (before ++ after) st =
    match engine_steps before st with
    | (Ok _, st1) => engine_steps after st1
    | (Exc e, st1) => (Exc e, st1)
    end.
Proof.
  revert st. induction before as [|[d| |d] before IH]; intros st;
    cbn [app engine_steps].
  - reflexivity.
  - unfold mbind, M_bind.
    destruct (_progress_hook d st) as [[[]|m] st1]; [apply IH | reflexivity].
  - unfold mbind, M_bind. cbn [cancel]. apply IH.
  - unfold mbind, M_bind.
    destruct (_progress_hook d st) as [[[]|m] st1]; [|reflexivity].
    cbn [cancel]. apply IH.
Qed.

(** X12.  A callback that starts after the window's [cancel()] emits
    nothing: whatever happened before, the events of the call are those
    emitted up to the cancel, and the call itself is aborted ("Загрузка
    отменена") by the first callback that follows.  Only the callback that
    was already past its test of the flag when [cancel()] arrived still emits
    its own events, and nothing is added after it: with a cancel during the
    first of two callbacks, the first progress record goes out and the second
    callback aborts the call. *)
Theorem cancel_freezes_the_events
    (before after : list EngineStep) (d : RawEvent) (st : WState) :
  emitted (snd (engine_steps (before ++ CancelRequest :: after) st)) =
    emitted (snd (engine_steps before st)) /\
  (fst (engine_steps before st) = Ok tt ->
   fst (engine_steps (before ++ CancelRequest :: after) st) =
     if existsb is_callback after then Exc "Загрузка отменена" else Ok tt) /\
  emitted (snd (engine_steps (before ++ CancelDuringCallback d :: after) st)) =
    emitted (snd (engine_steps (before ++ [Callback d]) st)) /\
  (fst (engine_steps (before ++ [Callback d]) st) = Ok tt ->
   fst (engine_steps (before ++ CancelDuringCallback d :: after) st) =
     if existsb is_callback after then Exc "Загрузка отменена" else Ok tt) /\
  engine_steps [CancelDuringCallback quarter; Callback quarter] init =
    (Exc "Загрузка отменена",
     {| _cancelled := true; emitted := [Progress (hook_record quarter)] |}).
Proof.
  rewrite !engine_steps_app.
  destruct (engine_steps before st) as [[[]|m] st1]; cbn [fst snd].
  - cbn [engine_steps]. unfold mbind, M_bind. cbn [cancel mret M_ret].
    destruct (engine_steps_cancelled after
                {| _cancelled := true; emitted := emitted st1 |})
      as (He & _ & Hr); [reflexivity|].
    cbn [emitted] in He.
    split; [exact He|]. split; [intros _; exact Hr|].
    destruct (_progress_hook d st1) as [[[]|m] st2]; cbn [fst snd].
    + destruct (engine_steps_cancelled after
                  {| _cancelled := true; emitted := emitted st2 |})
        as (He2 & _ & Hr2); [reflexivity|].
      cbn [emitted] in He2.
      split; [exact He2|]. split; [intros _; exact Hr2 | reflexivity].
    + split; [reflexivity|]. split; [discriminate | reflexivity].
  - split; [reflexivity|]. split; [discriminate|].
    split; [reflexivity|]. split; [discriminate | reflexivity].
Qed.

(** *** The percentage *)

Lemma progress_hook_finished d st :
  status d = "finished" -> _cancelled st = false ->
  _progress_hook d st =
    (Ok tt, {| _cancelled := false;
               emitted := emitted st ++
                 [Progress {| percent := 100; speed_str := ""; eta_str := "";
                              downloaded_str := ""; total_str := "" |};
                  StatusUpdate "Обработка..."] |}).
Proof.
  intros Hs Hc. unfold _progress_hook.
  change ((read_cancelled ≫= ?f) st) with (f (_cancelled st) st).
  rewrite Hc, Hs. cbv beta iota.
  change ("finished" =? "downloading")%string with false.
  change ("finished" =? "finished")%string with true. cbv iota.
  unfold mbind, M_bind, emit. cbn [_cancelled emitted]. rewrite Hc.
  rewrite <- app_assoc. reflexivity.
Qed.

Lemma progress_hook_other d st :
  (status d =? "downloading")%string = false ->
  (status d =? "finished")%string = false ->
  _cancelled st = false ->
  _progress_hook d st = (Ok tt, st).
Proof.
  intros Hs Hf Hc. unfold _progress_hook.
  change ((read_cancelled ≫= ?f) st) with (f (_cancelled st) st).
  rewrite Hc, Hs, Hf. reflexivity.
Qed.

Lemma hook_percent_le_100 d : (hook_percent d <= 100)%Q.
Proof.
  unfold hook_percent, py_min.
  destruct (Qlt_le_dec 0 (hook_total d)); [|discriminate].
  destruct (Qlt_le_dec 100 (hook_downloaded d / hook_total d * 100));
    [apply Qle_refl | assumption].
Qed.

(** X13.  Whatever the callback carries and whatever the worker's state,
    every progress record the callback emits has a percentage of at most 100;
    and for an in-progress event whose byte count has reached the positive
    total it announces, the one record emitted reads 100. *)
Theorem percent_at_most_100 (d : RawEvent) (st : WState) :
  exists evs,
    emitted (snd (_progress_hook d st)) = (emitted st ++ evs)%list /\
    (forall r, In (Progress r) evs -> (percent r <= 100)%Q) /\
    (status d = "downloading" -> _cancelled st = false ->
     (0 < event_total d)%Q -> (event_total d <= event_downloaded d)%Q ->
     exists r, evs = [Progress r] /\ (percent r == 100)%Q).
Proof.
  destruct (_cancelled st) eqn:Hc.
  { exists []. rewrite (progress_hook_cancelled d st Hc). cbn [snd].
    rewrite app_nil_r. split; [reflexivity|].
    split; [intros r [] | intros _ H; discriminate H]. }
  destruct (status d =? "downloading")%string eqn:Hs.
  { apply String.eqb_eq in Hs. exists [Progress (hook_record d)].
    rewrite (progress_hook_downloading d st Hs Hc). cbn [snd emitted].
    split; [reflexivity|]. split.
    - intros r [E|[]]. injection E as <-. cbn [percent hook_record].
      apply hook_percent_le_100.
    - intros _ _ Ht Hd. exists (hook_record d). split; [reflexivity|].
      cbn [percent hook_record]. unfold hook_percent, py_min.
      rewrite hook_downloaded_event, hook_total_event.
      destruct (Qlt_le_dec 0 (event_total d)) as [_|Hle];
        [|exfalso; exact (Qlt_not_le _ _ Ht Hle)].
      destruct (Qlt_le_dec 100 (event_downloaded d / event_total d * 100))
        as [|Hle]; [reflexivity|].
      apply Qle_antisym; [exact Hle|].
      apply Qle_trans with (1 * 100)%Q; [discriminate|].
      apply Qmult_le_compat_r; [|discriminate].
      apply Qle_shift_div_l; [exact Ht|]. rewrite Qmult_1_l. exact Hd. }
  destruct (status d =? "finished")%string eqn:Hf.
  { apply String.eqb_eq in Hf.
    eexists. rewrite (progress_hook_finished d st Hf Hc). cbn [snd emitted].
    split; [reflexivity|]. split.
    - intros r [E|[E|[]]]; [|discriminate E]. injection E as <-.
      cbn [percent]. apply Qle_refl.
    - intros E. rewrite E in Hs. discriminate Hs. }
  exists []. rewrite (progress_hook_other d st Hs Hf Hc). cbn [snd].
  rewrite app_nil_r. split; [reflexivity|].
  split; [intros r [] | intros E; rewrite E in Hs; discriminate Hs].
Qed.

Lemma percent_at_most_100_witness :
  exists r,
    emitted (snd (_progress_hook (downloading (Some 3000%Q) (Some 2048%Q)) init)) =
      [Progress r] /\
    (percent r == 100)%Q.
Proof.
  destruct (percent_at_most_100 (downloading (Some 3000%Q) (Some 2048%Q)) init)
    as (evs & He & _ & H100).
  destruct H100 as (r & -> & Hr).
  - reflexivity.
  - reflexivity.
  - vm_compute. reflexivity.
  - vm_compute. discriminate.
  - exists r. split; [exact He | exact Hr].
Defined.

End RunEnds.

(** ** More on the request and on the formatters *)

Section RequestAndText.
Import PyFmt Parser Downloader Text.

Lemma contains_plus_cons c s :
  contains "+" (String c s) = Ascii.eqb c "+" || contains "+" s.
Proof.
  cbn [contains String.prefix]. destruct (ascii_dec "+" c) as [E|Hne].
  - subst c. rewrite Ascii.eqb_refl. destruct s; reflexivity.
  - destruct (Ascii.eqb_spec c "+"); [congruence | reflexivity].
Qed.

Lemma contains_plus_app a b :
  contains "+" (a ++ b) = contains "+" a || contains "+" b.
Proof.
  induction a as [|c a IH].
  - destruct b; reflexivity.
  - change (String c a ++ b) with (String c (a ++ b)).
    rewrite !contains_plus_cons, IH. apply orb_assoc.
Qed.

Lemma uint_no_plus d : contains "+" (NilEmpty.string_of_uint d) = false.
Proof.
  induction d; cbn [NilEmpty.string_of_uint];
    rewrite ?contains_plus_cons, ?IHd; reflexivity.
Qed.

Lemma str_int_no_plus n : contains "+" (str_int n) = false.
Proof.
  assert (H : forall d, contains "+" (NilZero.string_of_uint d) = false).
  { intros d. unfold NilZero.string_of_uint.
    destruct d; try apply uint_no_plus. reflexivity. }
  unfold str_int. destruct (Z.to_int n) as [d|d]; unfold NilZero.string_of_int.
  - apply H.
  - rewrite contains_plus_cons, H. reflexivity.
Qed.

Lemma video_format_str_plus has_ffmpeg height :
  contains "+" (video_format_str has_ffmpeg height) = has_ffmpeg.
Proof.
  unfold video_format_str. destruct has_ffmpeg;
    rewrite !contains_plus_app, !str_int_no_plus; reflexivity.
Qed.

(** X14.  Whatever the choice and the environment, the request names a
    format expression and registers the progress callback, and the
    expression asks for separate video and audio streams (it contains "+")
    exactly when a merge is scheduled: without FFmpeg only single-file
    formats are requested. *)
Theorem separate_streams_iff_merge
    (os : OS) (output_dir : string) (choice : Choice.t) :
  request os output_dir choice !! "progress_hooks" = Some VHooks /\
  exists format_str,
    request os output_dir choice !! "format" = Some (VStr format_str) /\
    contains "+" format_str = merge_required (request os output_dir choice).
Proof.
  unfold request.
  destruct (String.eqb (Choice.type choice) "audio").
  - rewrite merge_required_audio. unfold audio_ydl_opts, check_ffmpeg.
    destruct (str_truthy (get_ffmpeg_path os));
      (split; [repeat (rewrite lookup_insert_ne by done); apply lookup_insert_eq|]);
      exists "bestaudio/best";
      (split; [repeat (rewrite lookup_insert_ne by done); apply lookup_insert_eq
              | reflexivity]).
  - rewrite merge_required_video. unfold video_ydl_opts, check_ffmpeg.
    destruct (str_truthy (get_ffmpeg_path os));
      (split; [repeat (rewrite lookup_insert_ne by done); apply lookup_insert_eq|]);
      eexists;
      (split; [repeat (rewrite lookup_insert_ne by done); apply lookup_insert_eq
              | apply video_format_str_plus]).
Qed.

(** *** Rounding at the unit boundary *)

Lemma Qfloor_between (z : Z) (q : Q) :
  (inject_Z z <= q)%Q -> (q < inject_Z (z + 1))%Q -> Qfloor q = z.
Proof.
  intros Hlo Hhi.
  assert (z <= Qfloor q) by (rewrite <- (Qfloor_Z z); apply Qfloor_resp_le, Hlo).
  assert (Qfloor q < z + 1).
  { rewrite Zlt_Qlt. eapply Qle_lt_trans; [apply Qfloor_le | exact Hhi]. }
  lia.
Qed.

Lemma round_half_even_comp x y : (x == y)%Q -> round_half_even x = round_half_even y.
Proof.
  intros E. unfold round_half_even.
  rewrite (Qfloor_comp _ _ E).
  assert (Er : (x - inject_Z (Qfloor y) == y - inject_Z (Qfloor y))%Q)
    by (rewrite E; reflexivity).
  rewrite (Qcompare_comp _ _ Er _ _ (Qeq_refl (1 # 2))). reflexivity.
Qed.

Lemma round_up_to_1024 (b : Q) :
  (1023.5 <= b)%Q -> (b < 1024)%Q -> round_half_even b = 1024.
Proof.
  intros Hlo Hhi. unfold round_half_even.
  assert (Hfl : Qfloor b = 1023).
  { apply Qfloor_between; [|exact Hhi].
    eapply Qle_trans; [|exact Hlo]. discriminate. }
  rewrite Hfl.
  assert (Hr : (1 # 2 <= b - inject_Z 1023)%Q).
  { apply Qle_minus_iff in Hlo. apply Qle_minus_iff.
    eapply Qle_trans; [exact Hlo|]. apply Qle_lteq. right. ring. }
  destruct (b - inject_Z 1023 ?= 1 # 2)%Q eqn:E; [reflexivity| |reflexivity].
  exfalso. apply Qlt_alt in E. exact (Qlt_not_le _ _ E Hr).
Qed.

(** X15.  A size or rate from 1023.5 up to, but not including, 1024 is still
    in the byte range and is rounded up in it: the text is "1024 B" (resp.
    "1024 B/s"), not "1.0 KB". *)
Theorem just_below_1024_reads_1024 (b : Q) :
  (1023.5 <= b)%Q -> (b < 1024)%Q ->
  _format_bytes b = "1024 B" /\ _format_speed b = "1024 B/s".
Proof.
  intros Hlo Hhi.
  assert (Hpos : (0 <= b)%Q) by (eapply Qle_trans; [|exact Hlo]; discriminate).
  assert (Hf : fmt_f 0 b = "1024").
  { unfold fmt_f.
    destruct (Qlt_le_dec b 0) as [Hneg|_];
      [exfalso; exact (Qlt_not_le _ _ Hneg Hpos)|].
    rewrite (round_half_even_comp (Qabs b * inject_Z (10 ^ Z.of_nat 0)) b).
    - rewrite (round_up_to_1024 b Hlo Hhi). reflexivity.
    - rewrite (Qabs_pos b Hpos). simpl. apply Qmult_1_r. }
  unfold _format_bytes, _format_speed.
  destruct (Qlt_le_dec b 1024) as [_|Hge];
    [|exfalso; exact (Qlt_not_le _ _ Hhi Hge)].
  rewrite Hf. split; reflexivity.
Qed.

Lemma just_below_1024_reads_1024_witness :
  _format_bytes 1023.7 = "1024 B" /\ _format_speed 1023.7 = "1024 B/s".
Proof.
  apply (just_below_1024_reads_1024 1023.7).
  - discriminate.
  - reflexivity.
Defined.

End RequestAndText.

(** ** The window: what is started, and the worker list *)

Section Window.
Import Parser Downloader MainWindow Text.

Lemma list_remove_not_in x l : ~ In x l -> list_remove x l = l.
Proof.
  induction l as [|y l IH]; simpl; intros H; [reflexivity|].
  destruct (Nat.eqb_spec x y) as [->|_]; [exfalso; apply H; left; reflexivity|].
  rewrite IH; [reflexivity | intros Hin; apply H; right; exact Hin].
Qed.

Lemma list_remove_length x l :
  In x l -> S (length (list_remove x l)) = length l.
Proof.
  induction l as [|y l IH]; simpl; [contradiction|].
  destruct (Nat.eqb_spec x y) as [->|Hne]; [reflexivity|].
  intros [->|Hin]; [contradiction|]. simpl. rewrite IH; [reflexivity | exact Hin].
Qed.

Lemma list_remove_In x l v : In v (list_remove x l) -> In v l.
Proof.
  induction l as [|y l IH]; simpl; [tauto|].
  destruct (Nat.eqb x y); simpl; tauto.
Qed.

Lemma list_remove_other x l v : v <> x -> In v l -> In v (list_remove x l).
Proof.
  intros Hne. induction l as [|y l IH]; simpl; [tauto|].
  destruct (Nat.eqb_spec x y) as [->|_]; simpl; intuition congruence.
Qed.

Lemma list_remove_NoDup x l : NoDup l -> ~ In x (list_remove x l) /\ NoDup (list_remove x l).
Proof.
  induction 1 as [|y l Hy Hl IH]; simpl; [split; [tauto | constructor]|].
  rewrite list_elem_of_In in Hy.
  destruct (Nat.eqb_spec x y) as [->|Hne]; [auto|].
  destruct IH as [IH1 IH2]. split.
  - simpl. intuition congruence.
  - constructor; [|exact IH2]. rewrite list_elem_of_In.
    intros Hin. apply Hy. eapply list_remove_In, Hin.
Qed.

Lemma existsb_eqb_In x l : existsb (Nat.eqb x) l = true <-> In x l.
Proof.
  rewrite existsb_exists. split.
  - intros (y & Hy & E). apply Nat.eqb_eq in E. subst. exact Hy.
  - intros H. exists x. split; [exact H | apply Nat.eqb_refl].
Qed.

(** X16.  [_on_worker_finished] never fails: for a worker that is not in the
    list it changes nothing, and for one that is it lowers the count by
    exactly one and leaves every other worker in place. *)
Theorem worker_finished_removes_one (self : MainWindow.t) (worker : nat) :
  (~ In worker (active_workers self) -> _on_worker_finished self worker = self) /\
  (In worker (active_workers self) ->
     activeCount (_on_worker_finished self worker) = activeCount self - 1) /\
  (forall v, v <> worker ->
     (In v (active_workers (_on_worker_finished self worker)) <->
      In v (active_workers self))) /\
  max_concurrent (_on_worker_finished self worker) = max_concurrent self.
Proof.
  unfold _on_worker_finished, activeCount.
  split; [|split; [|split]].
  - intros Hn. destruct (existsb _ _) eqn:E; [|reflexivity].
    apply existsb_eqb_In in E. contradiction.
  - intros Hin. rewrite (proj2 (existsb_eqb_In _ _) Hin). simpl.
    rewrite <- (list_remove_length _ _ Hin). lia.
  - intros v Hv. destruct (existsb _ _); simpl; [|reflexivity].
    split; [apply list_remove_In | apply list_remove_other, Hv].
  - destruct (existsb _ _); reflexivity.
Qed.

(** X17.  Worker objects being distinct, a finished (or cancelled) worker is
    gone from the list afterwards, a second notification for it changes
    nothing, and starting a new worker and finishing it gives back the
    window as it was. *)
Theorem worker_finished_once_and_for_all (self : MainWindow.t) (worker : nat) :
  NoDup (active_workers self) ->
  ~ In worker (active_workers (_on_worker_finished self worker)) /\
  NoDup (active_workers (_on_worker_finished self worker)) /\
  _on_worker_finished (_on_worker_finished self worker) worker =
    _on_worker_finished self worker /\
  (~ In worker (active_workers self) ->
     _on_worker_finished (_start_download self worker) worker = self).
Proof.
  intros Hnd.
  assert (Hgone : ~ In worker (active_workers (_on_worker_finished self worker))).
  { unfold _on_worker_finished. destruct (existsb _ _) eqn:E; simpl.
    - apply list_remove_NoDup, Hnd.
    - intros Hin. apply existsb_eqb_In in Hin. congruence. }
  split; [exact Hgone|]. split; [|split].
  - unfold _on_worker_finished. destruct (existsb _ _); simpl; [|exact Hnd].
    apply list_remove_NoDup, Hnd.
  - unfold _on_worker_finished at 1.
    destruct (existsb _ (active_workers (_on_worker_finished self worker))) eqn:E;
      [|reflexivity].
    apply existsb_eqb_In in E. contradiction.
  - intros Hn. unfold _on_worker_finished, _start_download. simpl.
    rewrite (proj2 (existsb_eqb_In worker (active_workers self ++ [worker]))).
    + destruct self as [m l]. simpl in *. f_equal.
      clear Hgone Hnd. induction l as [|y l IH]; simpl.
      * rewrite Nat.eqb_refl. reflexivity.
      * destruct (Nat.eqb_spec worker y) as [->|_];
          [exfalso; apply Hn; left; reflexivity|].
        rewrite IH; [reflexivity | intros Hin; apply Hn; right; exact Hin].
    + apply in_or_app. right. left. reflexivity.
Qed.

Lemma worker_finished_once_and_for_all_witness :
  ~ In 2%nat (active_workers (_on_worker_finished three_running 2)) /\
  NoDup (active_workers (_on_worker_finished three_running 2)) /\
  _on_worker_finished (_on_worker_finished three_running 2) 2 =
    _on_worker_finished three_running 2 /\
  (~ In 2%nat (active_workers three_running) ->
     _on_worker_finished (_start_download three_running 2) 2 = three_running).
Proof.
  apply (worker_finished_once_and_for_all three_running 2).
  repeat constructor; rewrite list_elem_of_In; simpl; intuition discriminate.
Defined.

(** *** The two download buttons *)




End Window.

(** ** What the card shows, and the video's texts *)

Section Shown.
Import PyFmt Parser Downloader DownloadCard Text.

Lemma truthy_app_cons a c s : str_truthy (a ++ String c s) = true.
Proof. destruct a; reflexivity. Qed.

Lemma app_two_not_single a c1 c2 s x : a ++ String c1 (String c2 s) <> String x "".
Proof.
  destruct a as [|y a]; simpl; [discriminate|].
  intros [= _ E]. destruct a; discriminate.
Qed.

Lemma format_bytes_truthy b : str_truthy (_format_bytes b) = true.
Proof.
  unfold _format_bytes.
  repeat match goal with |- context [Qlt_le_dec ?x ?y] => destruct (Qlt_le_dec x y) end;
    apply truthy_app_cons.
Qed.





Lemma string_app_assoc (a b c : string) : (a ++ b) ++ c = a ++ b ++ c.
Proof.
  induction a as [|x a IH]; [reflexivity|].
  change (String x ((a ++ b) ++ c) = String x (a ++ b ++ c)). rewrite IH. reflexivity.
Qed.

Lemma string_app_empty (a : string) : a ++ "" = a.
Proof.
  induction a as [|x a IH]; [reflexivity|].
  change (String x (a ++ "") = String x a). rewrite IH. reflexivity.
Qed.

Lemma app_sep_not_NA a c s :
  c <> "N"%char -> c <> "/"%char -> c <> "A"%char -> a ++ String c s <> "N/A".
Proof.
  intros HN Hs HA. destruct a as [|x [|y [|z a]]]; simpl.
  - intros [= E]. congruence.
  - intros [= _ E]. congruence.
  - intros [= _ _ E]. congruence.
  - intros [= _ _ _ E]. destruct a; discriminate E.
Qed.

Lemma format_speed_shown v :
  str_truthy (_format_speed v) && negb (String.eqb (_format_speed v) "N/A") = true.
Proof.
  unfold _format_speed.
  repeat match goal with |- context [Qlt_le_dec ?x ?y] => destruct (Qlt_le_dec x y) end;
    (rewrite truthy_app_cons; cbn [andb]; apply negb_true_iff, String.eqb_neq,
       app_sep_not_NA; discriminate).
Qed.

Lemma format_eta_shown e :
  0 <= e -> str_truthy (_format_eta e) && negb (String.eqb (_format_eta e) "N/A") = true.
Proof.
  intros He. unfold _format_eta.
  destruct (Z.ltb_spec e 0); [lia|]. cbv zeta.
  repeat match goal with
         | |- context [":" ++ ?x] => change (":" ++ x) with (String ":" x)
         end.
  destruct (e / 3600 >? 0);
    (rewrite truthy_app_cons; cbn [andb]; apply negb_true_iff, String.eqb_neq,
       app_sep_not_NA; discriminate).
Qed.

Lemma format_bytes_shown b :
  str_truthy (_format_bytes b) && negb (String.eqb (_format_bytes b) "?") = true.
Proof.
  rewrite format_bytes_truthy. cbn [andb].
  apply negb_true_iff, String.eqb_neq. unfold _format_bytes.
  repeat match goal with |- context [Qlt_le_dec ?x ?y] => destruct (Qlt_le_dec x y) end;
    apply app_two_not_single.
Qed.

Lemma status_text_of_parts p sp et dl tot :
  str_truthy sp && negb (String.eqb sp "N/A") = true ->
  str_truthy dl = true ->
  status_text {| percent := p; speed_str := sp; eta_str := et;
                 downloaded_str := dl; total_str := tot |} =
    "⚡ " ++ sp ++
    (if str_truthy et && negb (String.eqb et "N/A") then "  •  ⏱ " ++ et else "") ++
    "  •  " ++ dl ++
    (if str_truthy tot && negb (String.eqb tot "?") then " / " ++ tot else "").
Proof.
  intros Hsp Hdl. unfold status_text, parts.
  cbn [percent speed_str eta_str downloaded_str total_str].
  rewrite Hsp, Hdl.
  assert (Hsize :
    (if str_truthy tot && negb (String.eqb tot "?") then dl ++ " / " ++ tot else dl) =
    dl ++ (if str_truthy tot && negb (String.eqb tot "?") then " / " ++ tot else "")).
  { destruct (str_truthy tot && negb (String.eqb tot "?")); [reflexivity|].
    symmetry. apply string_app_empty. }
  rewrite Hsize.
  set (size := dl ++ (if str_truthy tot && negb (String.eqb tot "?") then " / " ++ tot else "")).
  destruct (str_truthy et && negb (String.eqb et "N/A"));
    cbn [List.app join]; cbn [append];
    repeat f_equal; rewrite ?string_app_assoc; reflexivity.
Qed.

Lemma hook_record_speed_part d : "⚡ " ++ speed_str (hook_record d) = speed_part d.
Proof.
  unfold speed_part. cbn [speed_str hook_record]. unfold num_or, num_truthy.
  destruct (speed d) as [v|]; [|reflexivity].
  destruct (Qeq_bool v 0) eqn:Ev; cbn [negb]; [reflexivity|].
  rewrite Ev. reflexivity.
Qed.

(** X20.  For an in-progress event that reaches a worker not cancelled, the
    text the card shows for the record emitted is made of the speed (dots
    when the event has no speed or a zero one), the time left (dots when the
    event has none, nothing at all when it is negative) and the downloaded
    size, followed by " / total" exactly when the total the event announces
    is positive, with bullets in between: never the bare percentage. *)
Theorem card_text_of_a_progress_event (d : RawEvent) (st : WState) :
  status d = "downloading" ->
  _cancelled st = false ->
  exists r,
    _progress_hook d st =
      (Ok tt, {| _cancelled := false;
                 emitted := (emitted st ++ [Progress r])%list |}) /\
    status_text r = speed_part d ++ eta_part d ++ "  •  " ++ size_part d.
Proof.
  intros Hs Hc. exists (hook_record d).
  split; [apply progress_hook_downloading; assumption|].
  assert (Hsp : str_truthy (speed_str (hook_record d)) &&
                negb (String.eqb (speed_str (hook_record d)) "N/A") = true).
  { cbn [speed_str hook_record].
    destruct (num_truthy (Some (num_or (speed d) 0)));
      [apply format_speed_shown | reflexivity]. }
  rewrite <- hook_record_speed_part.
  unfold hook_record at 1.
  rewrite (status_text_of_parts _ _ _ _ _ Hsp (format_bytes_truthy _)).
  rewrite <- string_app_assoc. f_equal. f_equal; [|f_equal].
  - unfold eta_part. destruct (eta d) as [e|]; [|reflexivity].
    destruct (Z.ltb_spec e 0) as [Hneg|Hpos].
    + unfold _format_eta. destruct (Z.ltb_spec e 0); [reflexivity | lia].
    + rewrite (format_eta_shown e Hpos). reflexivity.
  - unfold size_part. rewrite hook_downloaded_event, hook_total_event.
    f_equal. destruct (Qlt_le_dec 0 (event_total d)); [|reflexivity].
    rewrite format_bytes_shown. reflexivity.
Qed.

Lemma card_text_of_a_progress_event_witness :
  exists r,
    _progress_hook halfway init =
      (Ok tt, {| _cancelled := false; emitted := [Progress r] |}) /\
    status_text r = "⚡ 2.0 KB/s  •  ⏱ 0:45  •  1.0 MB / 2.0 MB".
Proof.
  destruct (card_text_of_a_progress_event halfway init) as [r [He Hr]].
  - reflexivity.
  - reflexivity.
  - exists r. split; [exact He|]. rewrite Hr. vm_compute. reflexivity.
Defined.

(** X21.  For a duration that is not negative, the text shown for the video
    is the one [_format_eta] gives for an ETA of as many seconds; a negative
    duration down to minus one hour wraps around (it reads as the duration
    plus one hour) instead of reading "N/A". *)
Theorem duration_str_and_format_eta (video_info : VideoInfo) :
  (0 <= duration video_info ->
   duration_str video_info = _format_eta (duration video_info)) /\
  (-3600 <= duration video_info < 0 ->
   duration_str video_info = _format_eta (duration video_info + 3600)).
Proof.
  unfold duration_str, _format_eta. split; intros H.
  - destruct (Z.ltb_spec (duration video_info) 0); [lia | reflexivity].
  - destruct (Z.ltb_spec (duration video_info + 3600) 0); [lia|].
    replace (duration video_info / 3600) with (-1)
      by (apply (Z.div_unique _ _ _ (duration video_info + 3600)); lia).
    replace (duration video_info mod 3600) with (duration video_info + 3600)
      by (apply (Z.mod_unique _ _ (-1)); lia).
    rewrite (Z.div_small (duration video_info + 3600) 3600),
            (Z.mod_small (duration video_info + 3600) 3600) by lia.
    reflexivity.
Qed.

(** *** The size in MB *)

Lemma round_half_even_close q :
  (- (1 # 2) <= inject_Z (round_half_even q) - q)%Q /\
  (inject_Z (round_half_even q) - q <= 1 # 2)%Q.
Proof.
  unfold round_half_even.
  pose proof (Qfloor_le q) as Hlo. pose proof (Qlt_floor q) as Hhi.
  rewrite inject_Z_plus in Hhi. change (inject_Z 1) with 1%Q in Hhi.
  set (fl := Qfloor q) in *.
  assert (H1 : (inject_Z (fl + 1) == inject_Z fl + 1)%Q)
    by (rewrite inject_Z_plus; reflexivity).
  destruct (q - inject_Z fl ?= 1 # 2)%Q eqn:E.
  - apply Qeq_alt in E. destruct (Z.even fl); [|rewrite H1]; split; lra.
  - apply Qlt_alt in E. split; lra.
  - apply Qgt_alt in E. rewrite H1. split; lra.
Qed.

(** X22.  [filesize_mb] is [None] when the size is missing or zero;
    otherwise it is a number of tenths that differs from the size in units
    of 1024*1024 bytes by at most 0.05. *)
Theorem filesize_mb_is_close (f : VideoFormat.t) :
  match VideoFormat.filesize f with
  | None => VideoFormat.filesize_mb f = None
  | Some v =>
      if Qeq_bool v 0 then VideoFormat.filesize_mb f = None
      else exists tenths : Z,
             VideoFormat.filesize_mb f = Some (inject_Z tenths / 10)%Q /\
             (- (1 # 20) <= inject_Z tenths / 10 - v / (1024 * 1024))%Q /\
             (inject_Z tenths / 10 - v / (1024 * 1024) <= 1 # 20)%Q
  end.
Proof.
  unfold VideoFormat.filesize_mb.
  destruct (VideoFormat.filesize f) as [v|]; [|reflexivity].
  destruct (Qeq_bool v 0); [reflexivity|].
  exists (round_half_even (v / (1024 * 1024) * 10)).
  split; [reflexivity|].
  destruct (round_half_even_close (v / (1024 * 1024) * 10)) as [Hlo Hhi].
  set (x := (v / (1024 * 1024))%Q) in *.
  set (n := inject_Z (round_half_even (x * 10))) in *.
  clearbody n x. unfold Qdiv. change (/ 10)%Q with (1 # 10)%Q. split; lra.
Qed.

End Shown.

(** ** The log file handler *)

Section LogFile.
Import Logger Text.

Lemma remove_first_single h : remove_first h [h] = [].
Proof. simpl. rewrite Nat.eqb_refl. reflexivity. Qed.

Lemma info_keeps message st :
  Logger._file_handler (info message st) = Logger._file_handler st /\
  handlers (info message st) = handlers st.
Proof. split; reflexivity. Qed.

Lemma setup_logger_state log_to_file :
  handlers (setup_logger log_to_file fresh) =
    handlers_for (Logger._file_handler (setup_logger log_to_file fresh)) /\
  (is_Some (Logger._file_handler (setup_logger log_to_file fresh)) <->
   log_to_file = true).
Proof.
  destruct log_to_file; simpl; split; try reflexivity.
  - split; [reflexivity | eauto].
  - split; [intros [x Hx]; discriminate | discriminate].
Qed.

Lemma set_log_to_file_state enabled st :
  handlers st = handlers_for (Logger._file_handler st) ->
  handlers (set_log_to_file enabled st) =
    handlers_for (Logger._file_handler (set_log_to_file enabled st)) /\
  (is_Some (Logger._file_handler (set_log_to_file enabled st)) <-> enabled = true).
Proof.
  intros Hinv. unfold set_log_to_file.
  destruct enabled, (Logger._file_handler st) as [h|] eqn:E; simpl in *.
  - rewrite E. split; [exact Hinv|]. split; [reflexivity | eauto].
  - rewrite Hinv. split; [reflexivity|]. split; [reflexivity | eauto].
  - rewrite Hinv, remove_first_single. split; [reflexivity|].
    split; [intros [x Hx]; discriminate | discriminate].
  - rewrite E. split; [exact Hinv|].
    split; [intros [x Hx]; discriminate | discriminate].
Qed.

Lemma last_default_unused {A} (l : list A) : forall x d1 d2,
  List.last (x :: l) d1 = List.last (x :: l) d2.
Proof.
  induction l as [|y l IH]; intros x d1 d2; [reflexivity|].
  change (List.last (y :: l) d1 = List.last (y :: l) d2). apply IH.
Qed.

Lemma last_cons {A} (l : list A) x d : List.last (x :: l) d = List.last l x.
Proof.
  destruct l as [|y l]; [reflexivity|].
  change (List.last (y :: l) d = List.last (y :: l) x). apply last_default_unused.
Qed.

Lemma toggled_state log_to_file toggles :
  handlers (toggled log_to_file toggles) =
    handlers_for (Logger._file_handler (toggled log_to_file toggles)) /\
  (is_Some (Logger._file_handler (toggled log_to_file toggles)) <->
   List.last toggles log_to_file = true).
Proof.
  unfold toggled.
  pose proof (setup_logger_state log_to_file) as H.
  revert H. generalize (setup_logger log_to_file fresh) as st.
  revert log_to_file.
  induction toggles as [|b toggles IH]; intros b0 st H; [exact H|].
  cbn [fold_left].
  rewrite last_cons.
  apply IH. apply set_log_to_file_state, H.
Qed.

(** X23.  After [setup_logger] and any series of calls of
    [set_log_to_file], the logger has exactly the handler the module
    remembers, hence at most one file handler, and it has one exactly when
    the last setting asked for was "on". *)
Theorem at_most_one_file_handler (log_to_file : bool) (toggles : list bool) :
  handlers (toggled log_to_file toggles) =
    handlers_for (Logger._file_handler (toggled log_to_file toggles)) /\
  (length (handlers (toggled log_to_file toggles)) <= 1)%nat /\
  (is_Some (Logger._file_handler (toggled log_to_file toggles)) <->
   List.last toggles log_to_file = true).
Proof.
  destruct (toggled_state log_to_file toggles) as [Hinv Hon].
  split; [exact Hinv|]. split; [|exact Hon].
  rewrite Hinv. destruct (Logger._file_handler _); simpl; lia.
Qed.

(** X24.  In any state so reached: asking twice for the same setting is the
    same as asking once; while the file log is off, nothing that is logged
    reaches the file; switching it on writes the notice "включено" as the
    first line of the new handler, and switching it off writes "выключено"
    as its last. *)
Theorem file_log_notices (log_to_file : bool) (toggles : list bool) :
  (forall enabled,
     set_log_to_file enabled (set_log_to_file enabled (toggled log_to_file toggles)) =
       set_log_to_file enabled (toggled log_to_file toggles)) /\
  (Logger._file_handler (toggled log_to_file toggles) = None ->
     (forall message,
        written (info message (toggled log_to_file toggles)) =
          written (toggled log_to_file toggles)) /\
     written (set_log_to_file true (toggled log_to_file toggles)) =
       (written (toggled log_to_file toggles) ++ ["Логирование в файл включено"])%list) /\
  (is_Some (Logger._file_handler (toggled log_to_file toggles)) ->
     written (set_log_to_file false (toggled log_to_file toggles)) =
       (written (toggled log_to_file toggles) ++ ["Логирование в файл выключено"])%list /\
     forall message,
       written (info message (set_log_to_file false (toggled log_to_file toggles))) =
         written (set_log_to_file false (toggled log_to_file toggles))).
Proof.
  destruct (toggled_state log_to_file toggles) as [Hinv _].
  set (st := toggled log_to_file toggles) in *.
  split; [|split].
  - intros enabled. unfold set_log_to_file at 1.
    destruct (set_log_to_file_state enabled st Hinv) as [_ Hon].
    destruct enabled, (Logger._file_handler (set_log_to_file _ st)) as [h|] eqn:E;
      try reflexivity.
    + exfalso. destruct Hon as [_ Hon]. destruct (Hon eq_refl). discriminate.
    + exfalso. destruct Hon as [Hon _]. assert (false = true) by eauto. discriminate.
  - intros Hoff. rewrite Hoff in Hinv. split.
    + intros message. unfold info. simpl. rewrite Hinv. apply app_nil_r.
    + unfold set_log_to_file. rewrite Hoff. simpl. rewrite Hinv. reflexivity.
  - intros [h Hon]. rewrite Hon in Hinv. unfold set_log_to_file. rewrite Hon.
    simpl. rewrite Hinv, remove_first_single. simpl. split; [reflexivity|].
    intros message. apply app_nil_r.
Qed.

End LogFile.

(** ** Urls *)

Section Urls.
Import Parser Text.

Lemma lstrip_eq s :
  lstrip s = match ws_head s with Some r => lstrip r | None => s end.
Proof.
  destruct s as [|c1 [|c2 [|c3 r3]]]; simpl; try reflexivity;
    destruct (ws1 c1); try reflexivity;
    destruct (ws2 c1 c2); try reflexivity;
    destruct (ws3 c1 c2 c3); reflexivity.
Qed.

Lemma blank_eq s :
  blank s = match s with
            | EmptyString => true
            | _ => match ws_head s with Some r => blank r | None => false end
            end.
Proof.
  destruct s as [|c1 [|c2 [|c3 r3]]]; simpl; try reflexivity;
    destruct (ws1 c1); try reflexivity;
    destruct (ws2 c1 c2); try reflexivity;
    destruct (ws3 c1 c2 c3); reflexivity.
Qed.

Lemma ws_head_shorter s r :
  ws_head s = Some r -> (String.length r < String.length s)%nat.
Proof.
  destruct s as [|c1 [|c2 [|c3 r3]]]; simpl; try discriminate;
    destruct (ws1 c1); try (intros [= <-]; simpl; lia); try discriminate;
    destruct (ws2 c1 c2); try (intros [= <-]; simpl; lia); try discriminate;
    destruct (ws3 c1 c2 c3); try (intros [= <-]; simpl; lia); discriminate.
Qed.

Lemma ws_head_app s r w : ws_head s = Some r -> ws_head (s ++ w) = Some (r ++ w).
Proof.
  destruct s as [|c1 [|c2 [|c3 r3]]]; simpl; try discriminate;
    destruct (ws1 c1); try (intros [= <-]; reflexivity); try discriminate;
    destruct (ws2 c1 c2); try (intros [= <-]; reflexivity); try discriminate;
    destruct (ws3 c1 c2 c3); try (intros [= <-]; reflexivity); discriminate.
Qed.

Lemma ws_head_lstrip s : ws_head (lstrip s) = None.
Proof.
  remember (String.length s) as n eqn:Hn.
  assert (Hle : (String.length s <= n)%nat) by lia. clear Hn.
  revert s Hle. induction n as [|n IH]; intros s Hle.
  - destruct s; [reflexivity | simpl in Hle; lia].
  - rewrite lstrip_eq. destruct (ws_head s) as [r|] eqn:E; [|exact E].
    apply IH. apply ws_head_shorter in E. lia.
Qed.

Lemma lstrip_fixed s : ws_head s = None -> lstrip s = s.
Proof. intros H. rewrite lstrip_eq, H. reflexivity. Qed.

Lemma blank_app a : forall w, blank a = true -> blank w = true -> blank (a ++ w) = true.
Proof.
  remember (String.length a) as n eqn:Hn.
  assert (Hle : (String.length a <= n)%nat) by lia. clear Hn.
  revert a Hle. induction n as [|n IH]; intros a Hle w Ha Hw.
  - destruct a; [exact Hw | simpl in Hle; lia].
  - destruct a as [|c a]; [exact Hw|].
    rewrite blank_eq in Ha.
    destruct (ws_head (String c a)) as [r|] eqn:E; [|discriminate].
    rewrite blank_eq. change (String c a ++ w) with (String c (a ++ w)).
    change (String c (a ++ w)) with (String c a ++ w).
    rewrite (ws_head_app _ _ w E).
    apply IH; [|exact Ha | exact Hw].
    apply ws_head_shorter in E. lia.
Qed.

Lemma rstrip_split s : exists w, s = rstrip s ++ w /\ blank w = true.
Proof.
  induction s as [|c s IH]; [exists ""; auto|].
  cbn [rstrip]. destruct (blank (String c s)) eqn:E.
  - exists (String c s). auto.
  - destruct IH as (w & Hs & Hw). exists w. split; [|exact Hw].
    change (String c (rstrip s) ++ w) with (String c (rstrip s ++ w)).
    f_equal. exact Hs.
Qed.

Lemma rstrip_idempotent s : rstrip (rstrip s) = rstrip s.
Proof.
  induction s as [|c s IH]; [reflexivity|].
  cbn [rstrip]. destruct (blank (String c s)) eqn:E; [reflexivity|].
  cbn [rstrip]. rewrite IH.
  destruct (blank (String c (rstrip s))) eqn:E'; [|reflexivity].
  exfalso. destruct (rstrip_split s) as (w & Hs & Hw).
  pose proof (blank_app _ w E' Hw) as Hb.
  change (String c (rstrip s) ++ w) with (String c (rstrip s ++ w)) in Hb.
  rewrite <- Hs in Hb. congruence.
Qed.

Lemma ws_head_rstrip s : ws_head s = None -> ws_head (rstrip s) = None.
Proof.
  intros H. destruct (ws_head (rstrip s)) as [r|] eqn:E; [|reflexivity].
  destruct (rstrip_split s) as (w & Hs & _).
  apply (ws_head_app _ _ w) in E. rewrite <- Hs in E. congruence.
Qed.

Lemma strip_clean s :
  ws_head (strip s) = None /\ rstrip (strip s) = strip s.
Proof.
  unfold strip. split; [apply ws_head_rstrip, ws_head_lstrip | apply rstrip_idempotent].
Qed.

Lemma strip_fixed s : ws_head s = None -> rstrip s = s -> strip s = s.
Proof. intros H1 H2. unfold strip. rewrite (lstrip_fixed _ H1). exact H2. Qed.

Lemma rstrip_after_https t : rstrip ("https://" ++ t) = "https://" ++ rstrip t.
Proof.
  change ("https://" ++ t) with
    (String "h" (String "t" (String "t" (String "p" (String "s"
      (String ":" (String "/" (String "/" t)))))))).
  repeat match goal with
  | |- context [rstrip (String ?c ?r)] =>
      lazymatch r with
      | t => fail
      | _ => change (rstrip (String c r)) with
               (if blank (String c r) then EmptyString else String c (rstrip r));
             replace (blank (String c r)) with false
               by (destruct t as [|c1 [|c2 t']]; reflexivity)
      end
  end.
  change (rstrip (String "/" t)) with
    (if blank (String "/" t) then EmptyString else String "/" (rstrip t)).
  replace (blank (String "/" t)) with false
    by (destruct t as [|c1 [|c2 t']]; reflexivity).
  reflexivity.
Qed.

Lemma in_whitespace x :
  existsb (String.eqb x) whitespace = true -> In x whitespace.
Proof.
  rewrite existsb_exists. intros (w & Hin & Heq).
  apply String.eqb_eq in Heq. subst. exact Hin.
Qed.

Lemma ascii_of_its_nat c n : nat_of_ascii c = n -> c = ascii_of_nat n.
Proof. intros <-. symmetry. apply ascii_nat_embedding. Qed.

Ltac whitespace_by_bytes :=
  repeat match goal with
         | H : _ \/ _ |- _ => destruct H as [H|H]
         | H : _ /\ _ |- _ => destruct H as [? H]
         end;
  repeat match goal with
         | H : nat_of_ascii ?c = _ |- _ => apply ascii_of_its_nat in H; subst c
         end;
  apply in_whitespace; vm_compute; reflexivity.

Lemma ws1_whitespace c1 : ws1 c1 = true -> In (String c1 "") whitespace.
Proof.
  unfold ws1. intros H.
  assert (Hn : (nat_of_ascii c1 = 9 \/ nat_of_ascii c1 = 10 \/
                nat_of_ascii c1 = 11 \/ nat_of_ascii c1 = 12 \/
                nat_of_ascii c1 = 13 \/ nat_of_ascii c1 = 28 \/
                nat_of_ascii c1 = 29 \/ nat_of_ascii c1 = 30 \/
                nat_of_ascii c1 = 31 \/ nat_of_ascii c1 = 32)%nat).
  { repeat (rewrite orb_true_iff in H || rewrite andb_true_iff in H).
    rewrite !Nat.leb_le in H. lia. }
  clear H. whitespace_by_bytes.
Qed.

Lemma ws2_whitespace c1 c2 :
  ws2 c1 c2 = true -> In (String c1 (String c2 "")) whitespace.
Proof.
  unfold ws2. intros H.
  apply andb_true_iff in H as [H1 H2]. apply Nat.eqb_eq in H1.
  apply orb_true_iff in H2. rewrite !Nat.eqb_eq in H2.
  whitespace_by_bytes.
Qed.

Lemma ws3_whitespace c1 c2 c3 :
  ws3 c1 c2 c3 = true -> In (String c1 (String c2 (String c3 ""))) whitespace.
Proof.
  unfold ws3. intros H.
  repeat (rewrite orb_true_iff in H || rewrite andb_true_iff in H).
  rewrite !Nat.eqb_eq, !Nat.leb_le in H.
  assert (Hn :
   ((nat_of_ascii c1 = 225 /\ nat_of_ascii c2 = 154 /\ nat_of_ascii c3 = 128) \/
    (nat_of_ascii c1 = 226 /\ nat_of_ascii c2 = 128 /\
       (nat_of_ascii c3 = 128 \/ nat_of_ascii c3 = 129 \/ nat_of_ascii c3 = 130 \/
        nat_of_ascii c3 = 131 \/ nat_of_ascii c3 = 132 \/ nat_of_ascii c3 = 133 \/
        nat_of_ascii c3 = 134 \/ nat_of_ascii c3 = 135 \/ nat_of_ascii c3 = 136 \/
        nat_of_ascii c3 = 137 \/ nat_of_ascii c3 = 138 \/ nat_of_ascii c3 = 168 \/
        nat_of_ascii c3 = 169 \/ nat_of_ascii c3 = 175)) \/
    (nat_of_ascii c1 = 226 /\ nat_of_ascii c2 = 129 /\ nat_of_ascii c3 = 159) \/
    (nat_of_ascii c1 = 227 /\ nat_of_ascii c2 = 128 /\ nat_of_ascii c3 = 128))%nat)
    by lia.
  clear H. whitespace_by_bytes.
Qed.

(** The model's test of a leading whitespace character agrees with the list
    of the whitespace characters. *)
Lemma ws_head_whitespace s r :
  ws_head s = Some r <-> exists w, In w whitespace /\ s = w ++ r.
Proof.
  split.
  - destruct s as [|c1 r1]; [discriminate|]. cbn [ws_head].
    destruct (ws1 c1) eqn:E1.
    { intros [= <-]. exists (String c1 "").
      split; [apply ws1_whitespace, E1 | reflexivity]. }
    destruct r1 as [|c2 r2]; [discriminate|].
    destruct (ws2 c1 c2) eqn:E2.
    { intros [= <-]. exists (String c1 (String c2 "")).
      split; [apply ws2_whitespace, E2 | reflexivity]. }
    destruct r2 as [|c3 r3]; [discriminate|].
    destruct (ws3 c1 c2 c3) eqn:E3; [|discriminate].
    intros [= <-]. exists (String c1 (String c2 (String c3 ""))).
    split; [apply ws3_whitespace, E3 | reflexivity].
  - intros (w & Hin & ->). vm_compute in Hin.
    repeat (destruct Hin as [<-|Hin]; [reflexivity|]). contradiction.
Qed.

Lemma whitespace_not_empty w : In w whitespace -> w <> "".
Proof.
  intros Hin. vm_compute in Hin.
  repeat (destruct Hin as [<-|Hin]; [discriminate|]). contradiction.
Qed.

Lemma string_length_app (a b : string) :
  String.length (a ++ b) = (String.length a + String.length b)%nat.
Proof.
  induction a as [|c a IH]; [reflexivity|].
  change (S (String.length (a ++ b)) = S (String.length a + String.length b)).
  rewrite IH. reflexivity.
Qed.

Lemma lstrip_split s : exists l, s = l ++ lstrip s /\ Blank l.
Proof.
  remember (String.length s) as n eqn:Hn.
  assert (Hle : (String.length s <= n)%nat) by lia. clear Hn.
  revert s Hle. induction n as [|n IH]; intros s Hle.
  - destruct s; [exists ""; split; [reflexivity | constructor] | simpl in Hle; lia].
  - rewrite lstrip_eq. destruct (ws_head s) as [r|] eqn:E.
    + pose proof (ws_head_shorter _ _ E) as Hlen.
      apply ws_head_whitespace in E as (w & Hw & ->).
      destruct (IH r) as (l & Hr & Hl); [lia|].
      exists (w ++ l). split; [|constructor; assumption].
      rewrite string_app_assoc, <- Hr. reflexivity.
    + exists "". split; [reflexivity | constructor].
Qed.

Lemma blank_Blank s : blank s = true -> Blank s.
Proof.
  remember (String.length s) as n eqn:Hn.
  assert (Hle : (String.length s <= n)%nat) by lia. clear Hn.
  revert s Hle. induction n as [|n IH]; intros s Hle Hb.
  - destruct s; [constructor | simpl in Hle; lia].
  - destruct s as [|c s]; [constructor|].
    rewrite blank_eq in Hb.
    destruct (ws_head (String c s)) as [r|] eqn:E; [|discriminate].
    pose proof (ws_head_shorter _ _ E) as Hlen.
    apply ws_head_whitespace in E as (w & Hw & ->).
    constructor; [exact Hw|]. apply IH; [lia | exact Hb].
Qed.

Lemma rstrip_app_blank w : forall rest,
  blank w = true ->
  (String.length (rstrip (rest ++ w)) <= String.length rest)%nat.
Proof.
  intros rest Hw. induction rest as [|c rest IH].
  - change ("" ++ w) with w. destruct w as [|c w]; [apply Nat.le_refl|].
    cbn [rstrip]. rewrite Hw. apply Nat.le_refl.
  - change (String c rest ++ w) with (String c (rest ++ w)). cbn [rstrip].
    destruct (blank (String c (rest ++ w))); cbn [String.length]; lia.
Qed.

Lemma strip_trimmed s : trimmed (strip s).
Proof.
  destruct (strip_clean s) as [Hh Hr].
  intros w rest Hw. split; intros E.
  - assert (H : ws_head (strip s) = Some rest)
      by (apply ws_head_whitespace; eauto).
    congruence.
  - assert (Hb : blank w = true).
    { rewrite blank_eq. pose proof (whitespace_not_empty w Hw) as Hne.
      destruct w as [|c w]; [congruence|].
      replace (ws_head (String c w)) with (Some "")
        by (symmetry; apply ws_head_whitespace; exists (String c w);
            split; [exact Hw | symmetry; apply string_app_empty]).
      reflexivity. }
    pose proof (rstrip_app_blank w rest Hb) as Hlen.
    rewrite <- E, Hr, E, string_length_app in Hlen.
    pose proof (whitespace_not_empty w Hw) as Hne.
    destruct w; [congruence | cbn [String.length] in Hlen; lia].
Qed.

Lemma strip_split s :
  exists l r, s = l ++ strip s ++ r /\ Blank l /\ Blank r.
Proof.
  destruct (lstrip_split s) as (l & Hs & Hl).
  destruct (rstrip_split (lstrip s)) as (r & Hr & Hb).
  exists l, r. unfold strip. rewrite <- Hr. auto using blank_Blank.
Qed.

Lemma prefix_http t : String.prefix "http" t = true <-> starts_with "http" t.
Proof.
  split.
  - destruct t as [|a [|b [|c [|d t]]]]; cbn [String.prefix];
      repeat match goal with
             | |- context [ascii_dec ?x ?y] => destruct (ascii_dec x y)
             end; try discriminate.
    intros _. subst. exists t. reflexivity.
  - intros [rest ->].
    change ("http" ++ rest)
      with (String "h" (String "t" (String "t" (String "p" rest)))).
    cbn [String.prefix].
    repeat match goal with
           | |- context [ascii_dec ?x ?y] =>
               destruct (ascii_dec x y); [|congruence]
           end.
    destruct rest; reflexivity.
Qed.

Example strip_no_break_space :
  strip (String (ascii_of_nat 194) (String (ascii_of_nat 160)
           ("youtu.be/1 " ++ String (ascii_of_nat 227) (String (ascii_of_nat 128)
              (String (ascii_of_nat 128) EmptyString))))) = "youtu.be/1".
Proof. reflexivity. Qed.

(** X26.  [normalize_url] takes the whitespace characters off both ends of
    the url, leaving what is in between as it is, and puts "https://" in
    front unless what is left starts with "http".  So the result always
    starts with "http", has no whitespace character at either end, and
    normalising it again changes nothing. *)
Theorem normalize_url_is_stable (url : string) :
  (exists l t r,
     url = l ++ t ++ r /\ Blank l /\ Blank r /\ trimmed t /\
     (starts_with "http" t -> normalize_url url = t) /\
     (~ starts_with "http" t -> normalize_url url = "https://" ++ t)) /\
  starts_with "http" (normalize_url url) /\
  trimmed (normalize_url url) /\
  normalize_url (normalize_url url) = normalize_url url /\
  normalize_url "www.youtube.com/watch?v=dQw4w9WgXcQ" =
    "https://www.youtube.com/watch?v=dQw4w9WgXcQ" /\
  normalize_url "http://youtu.be/123" = "http://youtu.be/123" /\
  normalize_url "   https://youtu.be/123   " = "https://youtu.be/123".
Proof.
  destruct (strip_clean url) as [Hh Hr].
  assert (Hcases :
    (String.prefix "http" (strip url) = true /\ normalize_url url = strip url) \/
    (String.prefix "http" (strip url) = false /\
     normalize_url url = "https://" ++ strip url)).
  { unfold normalize_url. destruct (String.prefix "http" (strip url)); auto. }
  assert (Hfix : strip (normalize_url url) = normalize_url url).
  { destruct Hcases as [[_ ->]|[_ ->]].
    - apply strip_fixed; assumption.
    - apply strip_fixed; [reflexivity|].
      rewrite rstrip_after_https, Hr. reflexivity. }
  assert (Hp : String.prefix "http" (normalize_url url) = true).
  { destruct Hcases as [[Hp ->]|[_ ->]]; [exact Hp | reflexivity]. }
  split; [|split; [|split; [|split]]].
  - destruct (strip_split url) as (l & r & Hs & Hl & Hb).
    exists l, (strip url), r.
    split; [exact Hs|]. split; [exact Hl|]. split; [exact Hb|].
    split; [apply strip_trimmed|]. split.
    + intros Hst. apply prefix_http in Hst.
      destruct Hcases as [[_ E]|[Hn _]]; [exact E | congruence].
    + intros Hst.
      destruct Hcases as [[Hy _]|[_ E]]; [|exact E].
      apply prefix_http in Hy. contradiction.
  - apply prefix_http, Hp.
  - rewrite <- Hfix. apply strip_trimmed.
  - unfold normalize_url at 1. cbv zeta. rewrite Hfix, Hp. reflexivity.
  - repeat split; reflexivity.
Qed.

End Urls.
